(** * mssql-cli: the statement batching and result-rendering pipeline

    A shallow embedding of [reader.go] (the [Reader] over the readline
    collaborator) and of the [CLI] type (session loop, batch accumulator,
    command classifier, executor and table renderer), followed by the
    properties of the specification settled against it.

    Conventions of the embedding.
    - A Go [string] is a Rocq [string]: a sequence of bytes; [len] is the
      byte length and [s[:n]] is [substring 0 n s].
    - Go's [int] and [int64] are [Z]; no value of the program comes near the
      64-bit bounds (lengths, widths, row counts).
    - [strings.TrimSpace], [strings.ToUpper], [strings.ToLower] and
      [strings.Fields] are embedded on ASCII text: the six ASCII white-space
      bytes, and the letters a-z / A-Z.  Bytes above 127 are left alone.
    - The terminal is the text written to it so far; the line source is the
      list of the results of the calls to [Readline] still to come; the
      database is an oracle answering each call from the history of calls,
      and every call is logged.
    - Loops that wait for input carry fuel: [None] means the loop was still
      running when the fuel ran out. *)

From Stdlib Require Import ZArith List String Ascii Bool Lia.
From Stdlib Require Import Numbers.DecimalString.
Import ListNotations.

Open Scope string_scope.
Open Scope Z_scope.

(** ** The Go standard library, as far as the program uses it *)

Module Go.

Definition len (s : string) : Z := Z.of_nat (String.length s).

(** [s[:n]] *)
Definition slice_to (n : nat) (s : string) : string := substring 0 n s.

(** The ASCII white space of [strings.TrimSpace] and [strings.Fields]:
    tab, line feed, vertical tab, form feed, carriage return, space. *)
Definition isSpace (a : ascii) : bool :=
  let n := nat_of_ascii a in
  ((9 <=? n)%nat && (n <=? 13)%nat) || (n =? 32)%nat.

Fixpoint trimLeft (s : string) : string :=
  match s with
  | String a s' => if isSpace a then trimLeft s' else s
  | EmptyString => EmptyString
  end.

Fixpoint trimRight (s : string) : string :=
  match s with
  | String a s' =>
      match trimRight s' with
      | EmptyString => if isSpace a then EmptyString else String a EmptyString
      | t => String a t
      end
  | EmptyString => EmptyString
  end.

Definition TrimSpace (s : string) : string := trimRight (trimLeft s).

Definition isLower (a : ascii) : bool :=
  let n := nat_of_ascii a in (97 <=? n)%nat && (n <=? 122)%nat.

Definition isUpper (a : ascii) : bool :=
  let n := nat_of_ascii a in (65 <=? n)%nat && (n <=? 90)%nat.

Definition upperByte (a : ascii) : ascii :=
  if isLower a then ascii_of_nat (nat_of_ascii a - 32) else a.

Definition lowerByte (a : ascii) : ascii :=
  if isUpper a then ascii_of_nat (nat_of_ascii a + 32) else a.

Fixpoint mapBytes (f : ascii -> ascii) (s : string) : string :=
  match s with
  | String a s' => String (f a) (mapBytes f s')
  | EmptyString => EmptyString
  end.

Definition ToUpper : string -> string := mapBytes upperByte.
Definition ToLower : string -> string := mapBytes lowerByte.

(** [strings.HasPrefix(s, prefix)] *)
Definition HasPrefix (s prefix : string) : bool := String.prefix prefix s.

(** [strings.HasSuffix(s, suffix)]:
    [len(s) >= len(suffix) && s[len(s)-len(suffix):] == suffix] *)
Definition HasSuffix (s suffix : string) : bool :=
  let n := String.length s in
  let k := String.length suffix in
  (k <=? n)%nat && String.eqb (substring (n - k) k s) suffix.

(** [strings.TrimSuffix(s, suffix)] *)
Definition TrimSuffix (s suffix : string) : string :=
  if HasSuffix s suffix
  then slice_to (String.length s - String.length suffix) s
  else s.

(** [strings.Join(elems, sep)] *)
Definition Join (elems : list string) (sep : string) : string :=
  String.concat sep elems.

(** [strings.Repeat(s, count)] for a count that is not negative *)
Fixpoint repeatN (s : string) (count : nat) : string :=
  match count with
  | O => EmptyString
  | S k => s ++ repeatN s k
  end.

Definition Repeat (s : string) (count : Z) : string :=
  repeatN s (Z.to_nat count).

(** [strings.Fields(s)]: the maximal runs of bytes that are not white
    space.  [cur] is the field being read, kept reversed. *)
Fixpoint revString (acc : string) (s : string) : string :=
  match s with
  | String a s' => revString (String a acc) s'
  | EmptyString => acc
  end.

Definition closeField (cur : string) (fields : list string) : list string :=
  match cur with
  | EmptyString => fields
  | _ => revString EmptyString cur :: fields
  end.

Fixpoint fieldsFrom (cur : string) (s : string) : list string :=
  match s with
  | String a s' =>
      if isSpace a
      then closeField cur (fieldsFrom EmptyString s')
      else fieldsFrom (String a cur) s'
  | EmptyString => closeField cur []
  end.

Definition Fields (s : string) : list string := fieldsFrom EmptyString s.

(** The verb [%d] *)
Definition itoa (n : Z) : string := NilZero.string_of_int (Z.to_int n).

(** Package utf8.  The tables [first] and [acceptRanges]: for a byte of
    128 or more that can lead an encoding, the size the encoding has and
    the range its second byte must lie in. *)
Definition inRange (lo hi : nat) (a : ascii) : bool :=
  let n := nat_of_ascii a in (lo <=? n)%nat && (n <=? hi)%nat.

Definition leading (a : ascii) : option (nat * nat * nat) :=
  let n := nat_of_ascii a in
  if (n <? 194)%nat then None
  else if (n <=? 223)%nat then Some (2, 128, 191)%nat
  else if (n =? 224)%nat then Some (3, 160, 191)%nat
  else if (n <=? 236)%nat then Some (3, 128, 191)%nat
  else if (n =? 237)%nat then Some (3, 128, 159)%nat
  else if (n <=? 239)%nat then Some (3, 128, 191)%nat
  else if (n =? 240)%nat then Some (4, 144, 191)%nat
  else if (n <=? 243)%nat then Some (4, 128, 191)%nat
  else if (n =? 244)%nat then Some (4, 128, 143)%nat
  else None.

(** The number of bytes that the loop of [utf8.RuneCountInString] steps
    over at the head of [s]: one for an ASCII byte, for a byte that leads
    nothing and for an encoding that is cut short or ill-formed, the size
    of the encoding otherwise. *)
Definition runeSize (s : string) : nat :=
  match s with
  | EmptyString => O
  | String c rest =>
      if (nat_of_ascii c <? 128)%nat then 1%nat
      else
        match leading c with
        | None => 1%nat
        | Some (size, lo, hi) =>
            if (String.length s <? size)%nat then 1%nat
            else
              match rest with
              | String c1 (String c2 (String c3 _)) =>
                  if negb (inRange lo hi c1) then 1%nat
                  else if (size =? 2)%nat then 2%nat
                  else if negb (inRange 128 191 c2) then 1%nat
                  else if (size =? 3)%nat then 3%nat
                  else if negb (inRange 128 191 c3) then 1%nat
                  else 4%nat
              | String c1 (String c2 EmptyString) =>
                  if negb (inRange lo hi c1) then 1%nat
                  else if (size =? 2)%nat then 2%nat
                  else if negb (inRange 128 191 c2) then 1%nat
                  else 3%nat
              | String c1 EmptyString =>
                  if negb (inRange lo hi c1) then 1%nat else 2%nat
              | EmptyString => 1%nat
              end
        end
  end.

(** [utf8.RuneCountInString]: [skip] is the number of bytes still to step
    over of the rune being counted. *)
Fixpoint runesFrom (skip : nat) (s : string) : nat :=
  match s with
  | EmptyString => O
  | String _ s' =>
      match skip with
      | S k => runesFrom k s'
      | O => S (runesFrom (runeSize s - 1) s')
      end
  end.

Definition RuneCountInString (s : string) : Z := Z.of_nat (runesFrom 0 s).

(** The verb [%-*s]: left-justified in a field of [width] characters,
    padded with spaces on the right; never cut.  The characters are
    counted by [utf8.RuneCountInString]. *)
Definition padRight (width : Z) (s : string) : string :=
  s ++ Repeat " " (width - RuneCountInString s).

(** [appendInt(b, x, width)] of package time: a sign when [x] is negative,
    then the decimal digits padded with zeros on the left up to [width]. *)
Definition appendInt (x : Z) (width : nat) : string :=
  let d := itoa (Z.abs x) in
  (if x <? 0 then "-" else "") ++ repeatN "0" (width - String.length d) ++ d.

End Go.

(** ** The collaborators: line source, database, clock *)

Definition error := string.

(** What one call of [readline.Instance.Readline] gives: a line, or one of
    the errors [readline.ErrInterrupt], [io.EOF], or any other error. *)
Inductive readlineResult :=
| Line (line : string)
| ErrInterrupt
| EOF
| OtherError (err : error).

(** The line source: the results of the calls to come.  When the list is
    used up the input is closed, and every further call gives [io.EOF].
    (A source that gives [io.EOF] once and then blocks is no different
    for the loops below: a call that blocks does not return either.) *)
Record Reader := { rl : list readlineResult }.

Definition Readline (r : Reader) : readlineResult * Reader :=
  match rl r with
  | res :: rest => (res, {| rl := rest |})
  | [] => (EOF, r)
  end.

(** [time.Time], as the calendar fields that [Format] prints. *)
Record Time := {
  year : Z; month : Z; day : Z; hour : Z; minute : Z; second : Z
}.

(** [t.Format("2006-01-02 15:04:05")] *)
Definition Time_Format (t : Time) : string :=
  Go.appendInt (year t) 4 ++ "-" ++ Go.appendInt (month t) 2 ++ "-" ++
  Go.appendInt (day t) 2 ++ " " ++ Go.appendInt (hour t) 2 ++ ":" ++
  Go.appendInt (minute t) 2 ++ ":" ++ Go.appendInt (second t) 2.

(** A scanned column value ([interface{}]): [nil], [[]byte], [time.Time],
    or one of the other kinds the driver hands out.  A [float64] is carried
    by the text that [%v] prints for it. *)
Inductive value :=
| VNil
| VBytes (val : string)
| VTime (val : Time)
| VInt64 (n : Z)
| VBool (b : bool)
| VString (s : string)
| VFloat64 (printed : string).

(** [*sql.Rows]: the column names and the rows the cursor has yet to
    yield.  [Next] followed by [Scan] takes the first of them. *)
Record Rows := { Columns : list string; pending : list (list value) }.

Inductive dbCall :=
| QueryCall (text : string)
| ExecCall (text : string).

(** [*sql.DB]: each call is answered from the calls made before it and its
    own text, with an error or a result, and is appended to [calls].  A
    deadline that passes is one of the errors. *)
Record DB := {
  answerQuery : list dbCall -> string -> error + Rows;
  answerExec : list dbCall -> string -> error + Z;
  calls : list dbCall
}.

Definition logCall (d : DB) (call : dbCall) : DB :=
  {| answerQuery := answerQuery d; answerExec := answerExec d;
     calls := (calls d ++ [call])%list |}.

Definition QueryContext (d : DB) (text : string) : (error + Rows) * DB :=
  (answerQuery d (calls d) text, logCall d (QueryCall text)).

Definition ExecContext (d : DB) (text : string) : (error + Z) * DB :=
  (answerExec d (calls d) text, logCall d (ExecCall text)).

(** [Rows.Scan] into [n] destinations: when the row has another number of
    values it fails, its error is dropped by the caller, and every
    destination keeps [nil]. *)
Definition Scan (n : nat) (row : list value) : list value :=
  if (List.length row =? n)%nat then row else repeat VNil n.

(** ** reader.go *)

(** [Reader.ReadLine] *)
Definition ReadLine (r : Reader) : string * option error * Reader :=
  match Readline r with
  | (ErrInterrupt, r') => ("", None, r')
  | (EOF, r') => ("exit", None, r')
  | (Line line, r') => (line, None, r')
  | (OtherError err, r') => ("", Some err, r')
  end.

(** ** The CLI *)

(** The session.  [term] is the text written to the terminal so far;
    [clock] is the monotonic clock in nanoseconds, as a function of the
    number of times it was read, and [clockReads] counts the reads. *)
Record CLI := {
  term : string;
  host : string;
  port : Z;
  username : string;
  password : string;
  database : string;
  db : DB;
  reader : Reader;
  timingEnabled : bool;
  maxRows : Z;
  clock : nat -> Z;
  clockReads : nat
}.

Definition with_term (c : CLI) (t : string) : CLI :=
  {| term := t; host := host c; port := port c; username := username c;
     password := password c; database := database c; db := db c;
     reader := reader c; timingEnabled := timingEnabled c;
     maxRows := maxRows c; clock := clock c; clockReads := clockReads c |}.

Definition with_database (c : CLI) (name : string) : CLI :=
  {| term := term c; host := host c; port := port c; username := username c;
     password := password c; database := name; db := db c;
     reader := reader c; timingEnabled := timingEnabled c;
     maxRows := maxRows c; clock := clock c; clockReads := clockReads c |}.

Definition with_db (c : CLI) (d : DB) : CLI :=
  {| term := term c; host := host c; port := port c; username := username c;
     password := password c; database := database c; db := d;
     reader := reader c; timingEnabled := timingEnabled c;
     maxRows := maxRows c; clock := clock c; clockReads := clockReads c |}.

Definition with_reader (c : CLI) (r : Reader) : CLI :=
  {| term := term c; host := host c; port := port c; username := username c;
     password := password c; database := database c; db := db c;
     reader := r; timingEnabled := timingEnabled c;
     maxRows := maxRows c; clock := clock c; clockReads := clockReads c |}.

Definition with_timingEnabled (c : CLI) (b : bool) : CLI :=
  {| term := term c; host := host c; port := port c; username := username c;
     password := password c; database := database c; db := db c;
     reader := reader c; timingEnabled := b;
     maxRows := maxRows c; clock := clock c; clockReads := clockReads c |}.

Definition with_clockReads (c : CLI) (n : nat) : CLI :=
  {| term := term c; host := host c; port := port c; username := username c;
     password := password c; database := database c; db := db c;
     reader := reader c; timingEnabled := timingEnabled c;
     maxRows := maxRows c; clock := clock c; clockReads := n |}.

(** [fmt.Fprintf(c.term, text)] with the text already formatted *)
Definition Fprintf (c : CLI) (text : string) : CLI :=
  with_term c (term c ++ text).

(** [time.Now()] *)
Definition time_Now (c : CLI) : Z * CLI :=
  (clock c (clockReads c), with_clockReads c (S (clockReads c))).

(** [time.Since(startTime)], a [Duration] in nanoseconds *)
Definition time_Since (c : CLI) (startTime : Z) : Z * CLI :=
  (clock c (clockReads c) - startTime, with_clockReads c (S (clockReads c))).

(** [NewCLI]: the terminal, the database handle and the clock are the
    collaborators the session is given. *)
Definition NewCLI (input : list readlineResult) (d : DB) (clk : nat -> Z)
    (host : string) (port : Z) (username password database : string) : CLI :=
  {| term := ""; host := host; port := port; username := username;
     password := password; database := database; db := d;
     reader := {| rl := input |}; timingEnabled := false;
     maxRows := 1000; clock := clk; clockReads := O |}.

(** [CLI.getPrompt] *)
Definition getPrompt (c : CLI) : string := database c ++ "> ".

(** One round of the loop of [CLI.readMultiLine]: what the body does with
    the lines gathered so far. *)
Inductive roundOutcome :=
| ReturnEmpty
| Break (lines : list string)
| NextRound (lines : list string).

Definition readRound (c : CLI) (lines : list string) : roundOutcome * CLI :=
  let '(line, err, r) := ReadLine (reader c) in
  let c := with_reader c r in
  match err with
  | Some _ => (ReturnEmpty, c)
  | None =>
      let trimmed := Go.TrimSpace line in
      if String.eqb trimmed "" && (List.length lines =? 0)%nat
      then (ReturnEmpty, c)
      else
        let lines := (lines ++ [line])%list in
        if String.eqb (Go.ToUpper trimmed) "GO"
        then (Break (removelast lines), c)
        else if Go.HasSuffix trimmed ";"
        then (Break lines, c)
        else (NextRound lines, Fprintf c "  -> ")
  end.

(** The loop of [CLI.readMultiLine]: [Some None] is [return ""] from inside
    the loop, [Some (Some lines)] is [break]. *)
Fixpoint readLoop (fuel : nat) (c : CLI) (lines : list string)
    : option (option (list string) * CLI) :=
  match fuel with
  | O => None
  | S fuel' =>
      match readRound c lines with
      | (ReturnEmpty, c') => Some (None, c')
      | (Break lines', c') => Some (Some lines', c')
      | (NextRound lines', c') => readLoop fuel' c' lines'
      end
  end.

(** [CLI.readMultiLine] *)
Definition readMultiLine (fuel : nat) (c : CLI) : option (string * CLI) :=
  match readLoop fuel c [] with
  | None => None
  | Some (None, c') => Some ("", c')
  | Some (Some lines, c') =>
      let result := Go.Join lines (String "010" "") in
      Some (Go.TrimSuffix (Go.TrimSpace result) ";", c')
  end.

Definition nl : string := String "010" "".

(** The text of [CLI.showHelp] *)
Definition helpText : string := "
SQL Server Commands
===================

General:
  help                    Show this help
  exit, quit              Exit
  clear, cls              Clear screen
  timing                  Toggle timing
  GO                      Execute batch (SQL Server style)

Database:
  USE <database>          Change database

Query Commands:
  SELECT ...              Query data
  INSERT ...              Insert data
  UPDATE ...              Update data
  DELETE ...              Delete data
  
Schema Commands:
  CREATE TABLE ...        Create table
  ALTER TABLE ...         Alter table
  DROP TABLE ...          Drop table
  CREATE INDEX ...        Create index
  
System Stored Procedures:
  sp_help [table]         Show table info
  sp_databases            List databases
  sp_tables               List tables
  sp_columns <table>      List columns
  sp_who                  Show active connections
  
Information Schema:
  SELECT * FROM INFORMATION_SCHEMA.TABLES
  SELECT * FROM INFORMATION_SCHEMA.COLUMNS WHERE TABLE_NAME = 'table'
  
System Views:
  SELECT * FROM sys.databases
  SELECT * FROM sys.tables
  SELECT * FROM sys.columns WHERE object_id = OBJECT_ID('table')

For more information: https://docs.microsoft.com/sql/
".

(** [CLI.showHelp]: the text is passed to [fmt.Fprintf] as the format and
    holds no [%], so it is written as it is. *)
Definition showHelp (c : CLI) : CLI := Fprintf c helpText.

(** [CLI.useDatabase] *)
Definition useDatabase (c : CLI) (dbName : string) : CLI :=
  let '(res, d) := ExecContext (db c) ("USE [" ++ dbName ++ "]") in
  let c := with_db c d in
  match res with
  | inl err => Fprintf c ("Error: " ++ err ++ nl)
  | inr _ =>
      let c := with_database c dbName in
      Fprintf c ("Changed database context to '" ++ dbName ++ "'." ++ nl)
  end.

(** [CLI.handleSpecialCommand] *)
Definition handleSpecialCommand (c : CLI) (cmd : string) : bool * CLI :=
  let cmdLower := Go.ToLower (Go.TrimSpace cmd) in
  if String.eqb cmdLower "exit" || String.eqb cmdLower "quit"
  then (true, Fprintf c nl)
  else if String.eqb cmdLower "help"
  then (true, showHelp c)
  else if String.eqb cmdLower "timing"
  then
    let c := with_timingEnabled c (negb (timingEnabled c)) in
    if timingEnabled c
    then (true, Fprintf c ("Timing enabled" ++ nl))
    else (true, Fprintf c ("Timing disabled" ++ nl))
  else if String.eqb cmdLower "clear" || String.eqb cmdLower "cls"
  then (true, Fprintf c (String "027" "[2J" ++ String "027" "[H"))
  else if Go.HasPrefix cmdLower "use "
  then
    match Go.Fields cmd with
    | _ :: name :: _ => (true, useDatabase c name)
    | _ => (true, c)
    end
  else (false, c).

(** [isQuery] *)
Definition queryPrefixes : list string :=
  [ "SELECT"; "SHOW"; "WITH"; "EXPLAIN";
    "EXEC sp_help"; "EXEC sp_databases"; "EXEC sp_tables";
    "EXEC sp_columns"; "EXEC sp_who" ].

Definition isQuery (sqlStr : string) : bool :=
  let upper := Go.ToUpper (Go.TrimSpace sqlStr) in
  existsb (fun prefix => Go.HasPrefix upper prefix) queryPrefixes.

(** [CLI.printError] *)
Definition printError (c : CLI) (err : error) : CLI :=
  let c := Fprintf c ("Msg 50000, Level 16, State 1" ++ nl) in
  Fprintf c (err ++ nl ++ nl).

(** [CLI.printSeparator] *)
Definition printSeparator (c : CLI) (colWidths : list Z) : CLI :=
  let c := Fprintf c "+" in
  let c :=
    fold_left (fun c width => Fprintf c (Go.Repeat "-" (width + 2) ++ "+"))
      colWidths c in
  Fprintf c nl.

(** The row-count line that [displayTable] and [executeCommand] both
    print. *)
Definition rowsAffected (count : Z) : string :=
  if count =? 0 then "(0 rows affected)" ++ nl
  else if count =? 1 then "(1 row affected)" ++ nl
  else "(" ++ Go.itoa count ++ " rows affected)" ++ nl.

(** The first loop of [displayTable]: the width of each column name,
    at least 4 and at most 50. *)
Definition headerWidth (col : string) : Z :=
  let w := Go.len col in
  let w := if w <? 4 then 4 else w in
  if w >? 50 then 50 else w.

(** The text of one scanned value *)
Definition formatValue (v : value) : string :=
  match v with
  | VNil => "NULL"
  | VBytes val => val
  | VTime val => Time_Format val
  | VInt64 n => Go.itoa n
  | VBool b => if b then "true" else "false"
  | VString s => s
  | VFloat64 printed => printed
  end.

(** The width test on one cell: gives the new width of the column and the
    text kept for the cell. *)
Definition fitCell (colWidth : Z) (rowStr : string) : Z * string :=
  if Go.len rowStr >? colWidth
  then
    if Go.len rowStr >? 50
    then (50, Go.slice_to 47 rowStr ++ "...")
    else (Go.len rowStr, rowStr)
  else (colWidth, rowStr).

(** The loop over the values of one row, [for i, v := range vals]: the
    widths and the values are walked together, both have [len(cols)]
    entries. *)
Fixpoint formatRow (colWidths : list Z) (vals : list value)
    : list Z * list string :=
  match vals, colWidths with
  | v :: vals', w :: colWidths' =>
      let '(w', rowStr) := fitCell w (formatValue v) in
      let '(colWidths'', rowStrs) := formatRow colWidths' vals' in
      (w' :: colWidths'', rowStr :: rowStrs)
  | _, _ => (colWidths, [])
  end.

(** The loop [for rows.Next()] of [displayTable]: gives the widths, the
    rows kept, and what is left in the cursor. *)
Fixpoint fetchRows (maxRows : Z) (ncols : nat) (cursor : list (list value))
    (colWidths : list Z) (allRows : list (list string))
    : list Z * list (list string) * list (list value) :=
  match cursor with
  | [] => (colWidths, allRows, [])
  | row :: cursor' =>
      let vals := Scan ncols row in
      let '(colWidths', rowStrs) := formatRow colWidths vals in
      let allRows' := (allRows ++ [rowStrs])%list in
      if Z.of_nat (List.length allRows') >=? maxRows
      then (colWidths', allRows', cursor')
      else fetchRows maxRows ncols cursor' colWidths' allRows'
  end.

(** One printed line of cells, [for i, val := range row] *)
Fixpoint printCells (c : CLI) (colWidths : list Z) (cells : list string)
    : CLI :=
  match cells, colWidths with
  | cell :: cells', w :: colWidths' =>
      printCells (Fprintf c (Go.padRight w cell ++ " | ")) colWidths' cells'
  | _, _ => c
  end.

Definition printLine (c : CLI) (colWidths : list Z) (cells : list string)
    : CLI :=
  let c := Fprintf c "| " in
  let c := printCells c colWidths cells in
  Fprintf c nl.

Section Executor.

(** [fmt.Sprintf("%.3f", d.Seconds())] for a duration [d] in nanoseconds:
    the conversion to [float64] and its printing are the Go runtime's. *)
Variable Sprintf_3f : Z -> string.

(** [fmt.Sprintf(format)] with no operand, that is what
    [fmt.Fprintf(w, format)] writes: the format with its verbs expanded by
    package fmt. *)
Variable Sprintf_format : string -> string.

(** [CLI.displayTable]; the cursor that is left is given back. *)
Definition displayTable (c : CLI) (rows : Rows) (cols : list string)
    (startTime : Z) : CLI * Rows :=
  let colWidths := map headerWidth cols in
  let '(colWidths, allRows, rest) :=
    fetchRows (maxRows c) (List.length cols) (pending rows) colWidths [] in
  let c := printSeparator c colWidths in
  let c := printLine c colWidths cols in
  let c := printSeparator c colWidths in
  let c := fold_left (fun c row => printLine c colWidths row) allRows c in
  let c := printSeparator c colWidths in
  let rowCount := Z.of_nat (List.length allRows) in
  let c := Fprintf c (rowsAffected rowCount) in
  let c :=
    if timingEnabled c
    then
      let '(elapsed, c) := time_Since c startTime in
      Fprintf c ("Time: " ++ Sprintf_3f elapsed ++ " sec" ++ nl)
    else c in
  (Fprintf c nl, {| Columns := Columns rows; pending := rest |}).

(** [CLI.executeQuery] *)
Definition executeQuery (c : CLI) (sqlStr : string) (startTime : Z) : CLI :=
  let '(res, d) := QueryContext (db c) sqlStr in
  let c := with_db c d in
  match res with
  | inl err => printError c err
  | inr rows => fst (displayTable c rows (Columns rows) startTime)
  end.

(** [CLI.executeCommand] *)
Definition executeCommand (c : CLI) (sqlStr : string) (startTime : Z)
    : CLI :=
  let '(res, d) := ExecContext (db c) sqlStr in
  let c := with_db c d in
  match res with
  | inl err => printError c err
  | inr affected =>
      let '(elapsed, c) := time_Since c startTime in
      let c := Fprintf c (rowsAffected affected) in
      let c :=
        if timingEnabled c
        then Fprintf c ("Time: " ++ Sprintf_3f elapsed ++ " sec" ++ nl)
        else c in
      Fprintf c nl
  end.

(** [CLI.executeSQL] *)
Definition executeSQL (c : CLI) (sqlStr : string) : CLI :=
  let '(startTime, c) := time_Now c in
  let sqlStr := Go.TrimSpace sqlStr in
  if String.eqb sqlStr "" then c
  else if isQuery sqlStr
  then executeQuery c sqlStr startTime
  else executeCommand c sqlStr startTime.

(** [CLI.Start]: [Some (None, c)] is [return nil].  The prompt is passed
    to [fmt.Fprintf] as the format. *)
Fixpoint Start (fuel : nat) (c : CLI) : option (option error * CLI) :=
  match fuel with
  | O => None
  | S fuel' =>
      let prompt := getPrompt c in
      let c := Fprintf c (Sprintf_format prompt) in
      match readMultiLine fuel' c with
      | None => None
      | Some (sqlStr, c) =>
          if String.eqb sqlStr "" then Start fuel' c
          else
            let sqlStr := Go.TrimSpace sqlStr in
            let '(handled, c) := handleSpecialCommand c sqlStr in
            if handled
            then
              if String.eqb (Go.ToLower sqlStr) "exit"
                 || String.eqb (Go.ToLower sqlStr) "quit"
              then Some (None, c)
              else Start fuel' c
            else Start fuel' (executeSQL c sqlStr)
      end
  end.

End Executor.

(** ** Vocabulary of the statements *)

(** The session [c] with the line source replaced by the results [input]
    of the calls to come. *)
Definition reading (c : CLI) (input : list readlineResult) : CLI :=
  with_reader c {| rl := input |}.

(** The statements that [handleSpecialCommand] treats without a word to
    the database, in lower case. *)
Definition controlCommands : list string :=
  ["exit"; "quit"; "help"; "timing"; "clear"; "cls"].

(** ** The renderer, read as functions of its input *)

(** The rows that the loop of [displayTable] formats, one after the other,
    each against the widths the rows before it left. *)
Fixpoint formatRows (ncols : nat) (colWidths : list Z)
    (rows : list (list value)) : list Z * list (list string) :=
  match rows with
  | [] => (colWidths, [])
  | row :: rows' =>
      let '(colWidths', rowStrs) := formatRow colWidths (Scan ncols row) in
      let '(colWidths'', allRows) := formatRows ncols colWidths' rows' in
      (colWidths'', rowStrs :: allRows)
  end.

(** How many rows the loop takes from a cursor of [avail] rows when it
    already holds [have] rows: it stops at the first row that brings the
    count to [maxRows], and it always takes one before it tests. *)
Definition rowsTaken (maxRows : Z) (have avail : nat) : nat :=
  Nat.min avail (Z.to_nat (Z.max 1 (maxRows - Z.of_nat have))).

(** The text of a border line, of a line of cells and of a whole table. *)
Definition separatorText (colWidths : list Z) : string :=
  "+" ++ String.concat "" (map (fun w => Go.Repeat "-" (w + 2) ++ "+") colWidths)
      ++ nl.

Fixpoint cellsText (colWidths : list Z) (cells : list string) : string :=
  match cells, colWidths with
  | cell :: cells', w :: colWidths' =>
      Go.padRight w cell ++ " | " ++ cellsText colWidths' cells'
  | _, _ => ""
  end.

Definition lineText (colWidths : list Z) (cells : list string) : string :=
  "| " ++ cellsText colWidths cells ++ nl.

Definition tableText (colWidths : list Z) (cols : list string)
    (allRows : list (list string)) : string :=
  separatorText colWidths ++ lineText colWidths cols ++
  separatorText colWidths ++
  String.concat "" (map (lineText colWidths) allRows) ++
  separatorText colWidths.

(** The timing line, when there is one: [elapsed] is the duration read
    from the clock, in nanoseconds. *)
Definition timingText (Sprintf_3f : Z -> string) (enabled : bool)
    (elapsed : Z) : string :=
  if enabled then "Time: " ++ Sprintf_3f elapsed ++ " sec" ++ nl else "".

(** Seconds with three decimals: one digit or more, a point, three
    digits. *)
Definition isDigit (a : ascii) : bool :=
  let n := nat_of_ascii a in (48 <=? n)%nat && (n <=? 57)%nat.

Fixpoint allDigits (s : string) : bool :=
  match s with
  | String a s' => isDigit a && allDigits s'
  | EmptyString => true
  end.

Fixpoint secondsFrom (seenDigit : bool) (s : string) : bool :=
  match s with
  | String a s' =>
      if isDigit a then secondsFrom true s'
      else if Ascii.eqb a "."
      then seenDigit && (String.length s' =? 3)%nat && allDigits s'
      else false
  | EmptyString => false
  end.

Definition isSeconds3 (s : string) : bool := secondsFrom false s.

(** ** A session to run the examples in *)

(** A database that fails every query, knows no database [missing], and
    reports three affected rows for any other execution. *)
Definition sampleDB : DB :=
  {| answerQuery := fun _ _ => inl "no result";
     answerExec := fun _ text =>
       if String.eqb text "USE [missing]"
       then inl "Database 'missing' does not exist."
       else inr 3;
     calls := [] |}.

(** A session on [master] reading [input], with a clock that advances by
    one millisecond at each reading. *)
Definition sampleCLI (input : list readlineResult) : CLI :=
  NewCLI input sampleDB (fun n => Z.of_nat n * 1000000)
    "localhost" 1433 "sa" "secret" "master".

(** The letter e with an acute accent, in UTF-8: one character, two
    bytes. *)
Definition eAcute : string := String "195" (String "169" "").

(** What package fmt writes for a format that holds no [%]: the format as
    it is.  The prompts of the examples are of this kind. *)
Definition verbatim (format : string) : string := format.

(** A cursor of [n] rows of one integer column. *)
Definition sampleRows (n : nat) : Rows :=
  {| Columns := ["n"]; pending := repeat [VInt64 7] n |}.

(** ** Vocabulary of the batch accumulator *)

(** The two tests that end a batch, on the line as it was read. *)
Definition isGO (line : string) : bool :=
  String.eqb (Go.ToUpper (Go.TrimSpace line)) "GO".

Definition endsBatch (line : string) : bool :=
  isGO line || Go.HasSuffix (Go.TrimSpace line) ";".

(** The session after [n] continuation prompts. *)
Fixpoint continuationPrompts (c : CLI) (n : nat) : CLI :=
  match n with
  | O => c
  | S k => continuationPrompts (Fprintf c "  -> ") k
  end.

(** ** Vocabulary of the texts *)

(** A text all of whose bytes are ASCII: the texts on which the case
    mapping of the embedding is that of Go. *)
Fixpoint asciiText (s : string) : bool :=
  match s with
  | String a s' => (nat_of_ascii a <? 128)%nat && asciiText s'
  | EmptyString => true
  end.

(** Whether a text has a byte that is not white space. *)
Fixpoint hasNonSpace (s : string) : bool :=
  match s with
  | String a s' => negb (Go.isSpace a) || hasNonSpace s'
  | EmptyString => false
  end.

(** * Properties *)

(** ** The model on concrete inputs *)

Example TrimSpace_ex : Go.TrimSpace "  select * from t  " = "select * from t".
Proof. reflexivity. Qed.

Example ToUpper_ex : Go.ToUpper "exec sp_who" = "EXEC SP_WHO".
Proof. reflexivity. Qed.

Example Fields_ex : Go.Fields " use   my db " = ["use"; "my"; "db"].
Proof. reflexivity. Qed.

Example itoa_ex :
  (Go.itoa 0, Go.itoa 1000, Go.itoa (-7)) = ("0", "1000", "-7").
Proof. reflexivity. Qed.

Example TrimSuffix_ex : Go.TrimSuffix "SELECT 1;" ";" = "SELECT 1".
Proof. reflexivity. Qed.

Example padRight_ex : Go.padRight 6 "id" = "id    ".
Proof. reflexivity. Qed.

Example Time_Format_ex :
  Time_Format {| year := 2024; month := 1; day := 2;
                 hour := 3; minute := 4; second := 5 |}
  = "2024-01-02 03:04:05".
Proof. reflexivity. Qed.

Example isQuery_select : isQuery "  select * from t" = true.
Proof. reflexivity. Qed.

Example isQuery_update : isQuery "update t set x=1" = false.
Proof. reflexivity. Qed.

(** ** Projections of the session through its updates *)

Lemma term_Fprintf c text : term (Fprintf c text) = term c ++ text.
Proof. reflexivity. Qed.

Lemma reader_Fprintf c text : reader (Fprintf c text) = reader c.
Proof. reflexivity. Qed.

Lemma append_assoc (a b c : string) : (a ++ b) ++ c = a ++ (b ++ c).
Proof. induction a as [|x a IH]; simpl; [reflexivity | now rewrite IH]. Qed.

Lemma append_nil_r (a : string) : a ++ "" = a.
Proof. induction a as [|x a IH]; simpl; [reflexivity | now rewrite IH]. Qed.

Lemma length_append (a b : string) :
  String.length (a ++ b) = (String.length a + String.length b)%nat.
Proof. induction a as [|x a IH]; simpl; [reflexivity | now rewrite IH]. Qed.

(** ** The command classifier *)

(** [strings.ToUpper] leaves no lower-case letter behind. *)
Lemma upperByte_not_lower a : Go.isLower (Go.upperByte a) = false.
Proof.
  destruct a as [[] [] [] [] [] [] [] []]; vm_compute; reflexivity.
Qed.

(** A prefix with a lower-case letter among its first bytes matches no
    upper-cased text. *)
Lemma HasPrefix_ToUpper_lower s p a q :
  Go.isLower a = true ->
  Go.HasPrefix (Go.ToUpper s) (p ++ String a q) = false.
Proof.
  intros Ha. revert s. induction p as [|b p IH]; intros s.
  - destruct s as [|x s]; simpl; [reflexivity|].
    destruct (ascii_dec a (Go.upperByte x)) as [E|E]; [|reflexivity].
    exfalso. subst a. rewrite upperByte_not_lower in Ha. discriminate.
  - destruct s as [|x s]; simpl; [reflexivity|].
    destruct (ascii_dec b (Go.upperByte x)); [apply IH | reflexivity].
Qed.

(** None of the five [EXEC sp_...] prefixes can match: [isQuery] is
    decided by the four keywords alone. *)
Lemma isQuery_keywords_only sqlStr :
  isQuery sqlStr =
  existsb (fun prefix => Go.HasPrefix (Go.ToUpper (Go.TrimSpace sqlStr)) prefix)
    ["SELECT"; "SHOW"; "WITH"; "EXPLAIN"].
Proof.
  unfold isQuery, queryPrefixes.
  set (u := Go.TrimSpace sqlStr).
  assert (E : forall q, Go.HasPrefix (Go.ToUpper u) ("EXEC s" ++ q) = false).
  { intros q. exact (HasPrefix_ToUpper_lower u "EXEC " "s" q eq_refl). }
  pose proof (E "p_help") as E1. pose proof (E "p_databases") as E2.
  pose proof (E "p_tables") as E3. pose proof (E "p_columns") as E4.
  pose proof (E "p_who") as E5.
  cbn [append] in E1, E2, E3, E4, E5.
  cbn [existsb]. rewrite E1, E2, E3, E4, E5. reflexivity.
Qed.

(** C1. The claim has a statement that begins with [EXEC sp_who], in any
    letter case, classified as a query.  The code upper-cases the statement
    and then tests it against prefixes that keep [sp_who] in lower case:
    both [exec sp_who] and [EXEC SP_WHO] come out as non-queries, and so
    does the prefix written exactly as in the list. *)
Theorem isQuery_exec_sp_who_is_false :
  isQuery "exec sp_who" = false /\
  isQuery "EXEC SP_WHO" = false /\
  isQuery "EXEC sp_who" = false.
Proof. repeat split; reflexivity. Qed.

(** ** The batch accumulator *)

Lemma reading_reader c : reading c (rl (reader c)) = c.
Proof. destruct c as [? ? ? ? ? ? ? [?] ? ? ? ?]. reflexivity. Qed.

Lemma Fprintf_reading c input text :
  Fprintf (reading c input) text = reading (Fprintf c text) input.
Proof. reflexivity. Qed.

Lemma reading_reading c input input' :
  reading (reading c input) input' = reading c input'.
Proof. reflexivity. Qed.

(** At end of input [ReadLine] hands out the line [exit]; the round keeps
    it as a line of the batch and asks for another one. *)
Lemma readRound_closed c lines :
  readRound (reading c []) lines
  = (NextRound (lines ++ ["exit"])%list, Fprintf (reading c []) "  -> ").
Proof.
  unfold readRound, ReadLine, Readline, reading. cbn.
  destruct lines; reflexivity.
Qed.

Lemma readLoop_closed fuel : forall c lines,
  readLoop fuel (reading c []) lines = None.
Proof.
  induction fuel as [|fuel IH]; intros c lines; [reflexivity|].
  cbn [readLoop]. rewrite readRound_closed, Fprintf_reading. apply IH.
Qed.

Lemma readMultiLine_closed fuel c : readMultiLine fuel (reading c []) = None.
Proof. unfold readMultiLine. now rewrite readLoop_closed. Qed.

(** C2. The claim has end of input on the first line of a batch end the
    round and the session.  In the code the line [exit] that [ReadLine]
    substitutes for EOF carries no terminator, so the accumulator prompts
    for a continuation line and reads again; with the input closed every
    read is EOF again: whatever the fuel, neither [readMultiLine] nor
    [Start] has returned. *)
Theorem Start_never_returns_on_closed_input :
  forall (Sprintf_3f : Z -> string) (Sprintf_format : string -> string)
         (fuel : nat) (c : CLI),
    readMultiLine fuel (reading c []) = None /\
    Start Sprintf_3f Sprintf_format fuel (reading c []) = None.
Proof.
  intros f g fuel c. split; [apply readMultiLine_closed|].
  destruct fuel as [|fuel]; [reflexivity|].
  cbn [Start]. rewrite Fprintf_reading, readMultiLine_closed. reflexivity.
Qed.

(** What the loop holds after [n] rounds at end of input: [n] lines
    [exit], and [n] continuation prompts on the terminal. *)
Example closed_input_three_rounds c :
  readRound (reading c []) ["exit"; "exit"]
  = (NextRound ["exit"; "exit"; "exit"], Fprintf (reading c []) "  -> ").
Proof. apply readRound_closed. Qed.

(** On a terminal the input can go on after an end-of-file key: the batch
    that began with it ends only at the next terminator, and what follows
    the substituted [exit] is part of the statement. *)
Example eof_then_GO c :
  readMultiLine 2 (reading c [EOF; Line "GO"])
  = Some ("exit", Fprintf (reading c []) "  -> ").
Proof. reflexivity. Qed.

Example eof_then_statement c :
  readMultiLine 2 (reading c [EOF; Line "SELECT 1;"])
  = Some ("exit" ++ nl ++ "SELECT 1", Fprintf (reading c []) "  -> ").
Proof. reflexivity. Qed.

(** The same session ends when the user types [exit] with a terminator. *)
Example Start_returns_on_exit (Sprintf_3f : Z -> string)
    (Sprintf_format : string -> string) c :
  Start Sprintf_3f Sprintf_format 2 (reading c [Line "exit;"])
  = Some (None,
          Fprintf (Fprintf (reading c []) (Sprintf_format (getPrompt c))) nl).
Proof. reflexivity. Qed.

(** C4 (as amended). An interrupt is read as the empty line.  On the first
    line of a batch the round returns the empty statement and nothing is
    gathered; on a continuation line the empty line is appended to the
    lines gathered so far, the continuation prompt is written and the loop
    goes on. *)
Theorem interrupt_is_an_empty_line :
  forall (c : CLI) (lines : list string) (rest : list readlineResult),
    readRound (reading c (ErrInterrupt :: rest)) lines
      = readRound (reading c (Line "" :: rest)) lines /\
    readRound (reading c (ErrInterrupt :: rest)) lines
      = match lines with
        | [] => (ReturnEmpty, reading c rest)
        | _ :: _ =>
            (NextRound (lines ++ [""])%list,
             Fprintf (reading c rest) "  -> ")
        end.
Proof.
  intros c lines rest. split; [reflexivity|].
  destruct lines; reflexivity.
Qed.

(** C4, the counterexample.  With [SELECT 1] gathered, an interrupted
    round leaves two lines, not one; and the statement that comes out of
    [SELECT 1], interrupt, [FROM t;] has an empty line in it that the
    statement of [SELECT 1], [FROM t;] has not. *)
Lemma interrupt_on_continuation_appends_a_line :
  let c := sampleCLI [ErrInterrupt] in
  fst (readRound c ["SELECT 1"]) = NextRound ["SELECT 1"; ""] /\
  fst (readRound c ["SELECT 1"]) <> NextRound ["SELECT 1"] /\
  option_map fst
    (readMultiLine 3 (reading c [Line "SELECT 1"; ErrInterrupt; Line "FROM t;"]))
    = Some ("SELECT 1" ++ nl ++ nl ++ "FROM t") /\
  option_map fst
    (readMultiLine 3 (reading c [Line "SELECT 1"; Line "FROM t;"]))
    = Some ("SELECT 1" ++ nl ++ "FROM t").
Proof.
  cbv zeta. repeat split; try reflexivity.
  intros H. vm_compute in H. discriminate H.
Qed.

(** C6. The lines [SELECT 1], [GO] give the statement [SELECT 1], and so
    does the single line [SELECT 1;]: in any session, whatever input
    follows, and with the rest of the input left unread. *)
Theorem readMultiLine_GO_and_semicolon :
  forall (c : CLI) (fuel : nat) (rest : list readlineResult),
    readMultiLine (S (S fuel)) (reading c (Line "SELECT 1" :: Line "GO" :: rest))
      = Some ("SELECT 1", Fprintf (reading c rest) "  -> ") /\
    readMultiLine (S fuel) (reading c (Line "SELECT 1;" :: rest))
      = Some ("SELECT 1", reading c rest).
Proof. intros c fuel rest. split; reflexivity. Qed.

(** ** Meta-commands *)

Lemma HasPrefix_inv s p :
  Go.HasPrefix s p = true -> exists r, s = p ++ r.
Proof.
  unfold Go.HasPrefix. revert s. induction p as [|a p IH]; intros s H.
  - now exists s.
  - destruct s as [|b s]; simpl in H; [discriminate|].
    destruct (ascii_dec a b) as [->|]; [|discriminate].
    destruct (IH s H) as [r ->]. now exists r.
Qed.

Lemma calls_logCall d call : calls (logCall d call) = (calls d ++ [call])%list.
Proof. reflexivity. Qed.

Lemma calls_useDatabase c dbName :
  calls (db (useDatabase c dbName))
  = (calls (db c) ++ [ExecCall ("USE [" ++ dbName ++ "]")])%list.
Proof.
  unfold useDatabase, ExecContext.
  destruct (answerExec (db c) (calls (db c)) ("USE [" ++ dbName ++ "]"));
    reflexivity.
Qed.

(** C3 (as amended). [exit], [quit], [help], [timing], [clear] and [cls]
    are handled without any call to the database: the handle and its log
    of calls are the same afterwards.  [use <name>] is handled by exactly
    one call to the database, the execution of [USE [<name>]]. *)
Theorem meta_commands_and_the_database :
  forall (c : CLI) (cmd name : string),
    (In (Go.ToLower (Go.TrimSpace cmd)) controlCommands ->
       fst (handleSpecialCommand c cmd) = true /\
       db (snd (handleSpecialCommand c cmd)) = db c) /\
    (Go.HasPrefix (Go.ToLower (Go.TrimSpace cmd)) "use " = true ->
     nth_error (Go.Fields cmd) 1 = Some name ->
       fst (handleSpecialCommand c cmd) = true /\
       calls (db (snd (handleSpecialCommand c cmd)))
       = (calls (db c) ++ [ExecCall ("USE [" ++ name ++ "]")])%list).
Proof.
  intros c cmd name. unfold handleSpecialCommand.
  set (cmdLower := Go.ToLower (Go.TrimSpace cmd)). split.
  - intros H. unfold controlCommands in H. cbn [In] in H.
    destruct H as [H|[H|[H|[H|[H|[H|[]]]]]]]; rewrite <- H; cbn;
      try (split; reflexivity).
    destruct (timingEnabled c); split; reflexivity.
  - intros H Hname. destruct (HasPrefix_inv _ _ H) as [r Hr].
    rewrite H, Hr. cbn.
    destruct (Go.Fields cmd) as [|f0 [|name' fs]]; try discriminate Hname.
    cbn in Hname. inversion Hname; subst name'. cbn [fst snd].
    split; [reflexivity | apply calls_useDatabase].
Qed.

(** C3, the counterexample: handling [use mydb] sends [USE [mydb]] to the
    database. *)
Lemma use_command_calls_the_database :
  fst (handleSpecialCommand (sampleCLI []) "use mydb") = true /\
  calls (db (sampleCLI [])) = [] /\
  calls (db (snd (handleSpecialCommand (sampleCLI []) "use mydb")))
    = [ExecCall "USE [mydb]"].
Proof. repeat split; reflexivity. Qed.

Lemma meta_commands_and_the_database_witness :
  (fst (handleSpecialCommand (sampleCLI []) " Timing ") = true /\
   db (snd (handleSpecialCommand (sampleCLI []) " Timing ")) = db (sampleCLI []))
  /\
  (fst (handleSpecialCommand (sampleCLI []) "USE mydb") = true /\
   calls (db (snd (handleSpecialCommand (sampleCLI []) "USE mydb")))
   = [ExecCall "USE [mydb]"]).
Proof.
  split.
  - apply (proj1 (meta_commands_and_the_database (sampleCLI []) " Timing "
                    "")).
    vm_compute. tauto.
  - exact (proj2 (meta_commands_and_the_database (sampleCLI []) "USE mydb"
                    "mydb") eq_refl eq_refl).
Defined.

(** ** [strings.TrimSpace] is idempotent *)

Lemma trimRight_cons a s :
  Go.trimRight (String a s)
  = match Go.trimRight s with
    | EmptyString => if Go.isSpace a then EmptyString else String a EmptyString
    | t => String a t
    end.
Proof. reflexivity. Qed.

Lemma trimRight_idem s : Go.trimRight (Go.trimRight s) = Go.trimRight s.
Proof.
  induction s as [|a s IH]; [reflexivity|].
  rewrite (trimRight_cons a s). destruct (Go.trimRight s) as [|b t] eqn:E.
  - destruct (Go.isSpace a) eqn:Ea; [reflexivity|].
    rewrite trimRight_cons. cbn [Go.trimRight]. now rewrite Ea.
  - rewrite trimRight_cons, IH. reflexivity.
Qed.

Lemma trimLeft_head s :
  Go.trimLeft s = "" \/
  exists a t, Go.trimLeft s = String a t /\ Go.isSpace a = false.
Proof.
  induction s as [|a s IH]; [now left|].
  cbn [Go.trimLeft]. destruct (Go.isSpace a) eqn:Ea; [exact IH|].
  right. now exists a, s.
Qed.

Lemma trimLeft_trimRight a t :
  Go.isSpace a = false ->
  Go.trimLeft (Go.trimRight (String a t)) = Go.trimRight (String a t).
Proof.
  intros Ea. rewrite trimRight_cons.
  destruct (Go.trimRight t); [rewrite Ea|]; cbn [Go.trimLeft]; now rewrite Ea.
Qed.

Lemma TrimSpace_idem s : Go.TrimSpace (Go.TrimSpace s) = Go.TrimSpace s.
Proof.
  unfold Go.TrimSpace.
  destruct (trimLeft_head s) as [E|(a & t & E & Ea)]; rewrite E.
  - reflexivity.
  - rewrite (trimLeft_trimRight a t Ea). apply trimRight_idem.
Qed.

(** ** Switching the database *)

Lemma handleSpecialCommand_use c cmd name :
  Go.HasPrefix (Go.ToLower (Go.TrimSpace cmd)) "use " = true ->
  nth_error (Go.Fields cmd) 1 = Some name ->
  handleSpecialCommand c cmd = (true, useDatabase c name).
Proof.
  intros H Hn. unfold handleSpecialCommand.
  destruct (HasPrefix_inv _ _ H) as [r Hr]. rewrite H, Hr. cbn.
  destruct (Go.Fields cmd) as [|f0 [|name' fs]]; try discriminate.
  cbn in Hn. now inversion Hn.
Qed.

Lemma use_is_not_exit s :
  Go.HasPrefix (Go.ToLower s) "use " = true ->
  (String.eqb (Go.ToLower s) "exit" || String.eqb (Go.ToLower s) "quit")
  = false.
Proof.
  intros H. destruct (HasPrefix_inv _ _ H) as [r Hr]. now rewrite Hr.
Qed.

(** C10. For a statement [use <name>] the database name of the session,
    and with it the prompt that [getPrompt] makes, becomes [<name>] exactly
    when the database accepts [USE [<name>]]; when it answers with an error
    the name and the prompt stay as they were and the error is written to
    the terminal.  ([Start] hands the prompt to fmt as a format: what is
    written for it is [Sprintf_format] of it.)
    Either way the command counts as handled and [Start], having read it,
    goes on to its next round with the session the handler left. *)
Theorem use_changes_database_only_on_success :
  forall (Sprintf_3f : Z -> string) (Sprintf_format : string -> string)
         (fuel : nat) (c0 c : CLI) (stmt name : string),
    readMultiLine fuel (Fprintf c0 (Sprintf_format (getPrompt c0)))
      = Some (stmt, c) ->
    stmt <> "" ->
    Go.HasPrefix (Go.ToLower (Go.TrimSpace stmt)) "use " = true ->
    nth_error (Go.Fields (Go.TrimSpace stmt)) 1 = Some name ->
    let c' := snd (handleSpecialCommand c (Go.TrimSpace stmt)) in
    fst (handleSpecialCommand c (Go.TrimSpace stmt)) = true /\
    match answerExec (db c) (calls (db c)) ("USE [" ++ name ++ "]") with
    | inr _ =>
        database c' = name /\
        getPrompt c' = name ++ "> " /\
        term c' = term c ++ "Changed database context to '" ++ name ++ "'." ++ nl
    | inl err =>
        database c' = database c /\
        getPrompt c' = getPrompt c /\
        term c' = term c ++ "Error: " ++ err ++ nl
    end /\
    timingEnabled c' = timingEnabled c /\
    maxRows c' = maxRows c /\
    reader c' = reader c /\
    Start Sprintf_3f Sprintf_format (S fuel) c0
      = Start Sprintf_3f Sprintf_format fuel c'.
Proof.
  intros f g fuel c0 c stmt name Hread Hne Huse Hname c'.
  assert (Hh : handleSpecialCommand c (Go.TrimSpace stmt)
               = (true, useDatabase c name)).
  { apply handleSpecialCommand_use; [now rewrite TrimSpace_idem | exact Hname]. }
  subst c'. rewrite Hh. cbn [fst snd].
  split; [reflexivity|]. split; [|split; [|split; [|split]]].
  - unfold useDatabase, ExecContext.
    destruct (answerExec (db c) (calls (db c)) ("USE [" ++ name ++ "]"));
      repeat split; reflexivity.
  - unfold useDatabase, ExecContext.
    destruct (answerExec (db c) (calls (db c)) ("USE [" ++ name ++ "]"));
      reflexivity.
  - unfold useDatabase, ExecContext.
    destruct (answerExec (db c) (calls (db c)) ("USE [" ++ name ++ "]"));
      reflexivity.
  - unfold useDatabase, ExecContext.
    destruct (answerExec (db c) (calls (db c)) ("USE [" ++ name ++ "]"));
      reflexivity.
  - cbn [Start]. rewrite Hread.
    assert (E : String.eqb stmt "" = false).
    { apply String.eqb_neq. exact Hne. }
    rewrite E, Hh, (use_is_not_exit _ Huse). reflexivity.
Qed.

(** [use missing] is refused by the sample database: the session stays on
    [master]; [use sales] is accepted. *)
Lemma use_changes_database_only_on_success_witness :
  (let c := reading (Fprintf (sampleCLI []) "master> ") [Line "exit;"] in
   let c' := snd (handleSpecialCommand c "use missing") in
   database c' = "master" /\
   term c' = "master> Error: Database 'missing' does not exist." ++ nl) /\
  (let c := reading (Fprintf (sampleCLI []) "master> ") [Line "exit;"] in
   let c' := snd (handleSpecialCommand c "use sales") in
   database c' = "sales" /\ getPrompt c' = "sales> ").
Proof.
  pose (c0 := sampleCLI [Line "use missing;"; Line "exit;"]).
  pose (c1 := sampleCLI [Line "use sales;"; Line "exit;"]).
  pose (c := reading (Fprintf (sampleCLI []) "master> ") [Line "exit;"]).
  pose proof (use_changes_database_only_on_success (fun _ => "0.000")
                verbatim 1
                c0 c "use missing" "missing" eq_refl
                ltac:(discriminate) eq_refl eq_refl) as H0.
  pose proof (use_changes_database_only_on_success (fun _ => "0.000")
                verbatim 1
                c1 c "use sales" "sales" eq_refl
                ltac:(discriminate) eq_refl eq_refl) as H1.
  cbv zeta in H0, H1. split.
  - destruct H0 as (_ & H0 & _). destruct H0 as (Hd & _ & Ht).
    split; [exact Hd | exact Ht].
  - destruct H1 as (_ & H1 & _). destruct H1 as (Hd & Hp & _).
    split; [exact Hd | exact Hp].
Defined.

(** ** The table renderer: one cell *)

Example isSeconds3_ex :
  map isSeconds3 ["0.001"; "12.340"; ".001"; "1.01"; "1.0010"; "-0.001"; "1,000"]
  = [true; true; false; false; false; false; false].
Proof. reflexivity. Qed.

Lemma length_slice_to n : forall s,
  String.length (Go.slice_to n s) = Nat.min n (String.length s).
Proof.
  unfold Go.slice_to. induction n as [|n IH]; intros [|a s]; cbn;
    try reflexivity.
  now rewrite IH.
Qed.

Lemma substring_append_skip k : forall t u,
  substring (String.length t) k (t ++ u) = substring 0 k u.
Proof. induction t as [|a t IH]; intros u; [reflexivity | apply IH]. Qed.

Lemma substring_all s : substring 0 (String.length s) s = s.
Proof. induction s as [|a s IH]; cbn; [reflexivity | now rewrite IH]. Qed.

Lemma HasSuffix_append t u : Go.HasSuffix (t ++ u) u = true.
Proof.
  unfold Go.HasSuffix. rewrite length_append.
  replace (String.length t + String.length u - String.length u)%nat
    with (String.length t) by lia.
  rewrite substring_append_skip, substring_all, String.eqb_refl.
  rewrite andb_true_r. apply Nat.leb_le. lia.
Qed.

Lemma fitCell_bound w s : w <= 50 -> fst (fitCell w s) <= 50.
Proof.
  intros Hw. unfold fitCell.
  destruct (Z.gtb_spec (Go.len s) w); [|exact Hw].
  destruct (Z.gtb_spec (Go.len s) 50); cbn; lia.
Qed.

(** A text of more than 50 bytes, in a column whose width is at most 50. *)
Lemma fitCell_long w s :
  w <= 50 -> 50 < Go.len s ->
  fitCell w s = (50, Go.slice_to 47 s ++ "...").
Proof.
  intros Hw Hs. unfold fitCell.
  destruct (Z.gtb_spec (Go.len s) w); [|lia].
  destruct (Z.gtb_spec (Go.len s) 50); [reflexivity | lia].
Qed.

(** Any text, in a column whose width is 50. *)
Lemma fitCell_capped s :
  fitCell 50 s
  = (50, if Go.len s >? 50 then Go.slice_to 47 s ++ "..." else s).
Proof. unfold fitCell. destruct (Go.len s >? 50); reflexivity. Qed.

Lemma len_truncated s :
  50 < Go.len s -> Go.len (Go.slice_to 47 s ++ "...") = 50.
Proof.
  unfold Go.len. intros H. rewrite length_append, length_slice_to.
  cbn [String.length]. lia.
Qed.

Lemma padRight_exact w s :
  Go.RuneCountInString s = w -> Go.padRight w s = s.
Proof.
  intros H. unfold Go.padRight, Go.Repeat. rewrite H, Z.sub_diag.
  cbn. apply append_nil_r.
Qed.

(** In an ASCII text every byte is a character. *)
Lemma runesFrom_ascii s :
  asciiText s = true -> Go.runesFrom 0 s = String.length s.
Proof.
  induction s as [|a s IH]; [reflexivity|].
  cbn [asciiText]. intros H. apply andb_true_iff in H. destruct H as [Ha Hs].
  cbn [Go.runesFrom Go.runeSize String.length]. rewrite Ha.
  cbn [Nat.sub]. now rewrite IH.
Qed.

Lemma RuneCountInString_ascii s :
  asciiText s = true -> Go.RuneCountInString s = Go.len s.
Proof.
  intros H. unfold Go.RuneCountInString, Go.len. now rewrite runesFrom_ascii.
Qed.

Lemma asciiText_append a b :
  asciiText (a ++ b) = asciiText a && asciiText b.
Proof.
  induction a as [|x a IH]; [reflexivity|].
  cbn [append asciiText]. now rewrite IH, andb_assoc.
Qed.

Lemma asciiText_slice_to n : forall s,
  asciiText s = true -> asciiText (Go.slice_to n s) = true.
Proof.
  unfold Go.slice_to. induction n as [|n IH]; intros [|a s] H;
    try reflexivity.
  cbn [substring asciiText] in *. apply andb_true_iff in H.
  destruct H as [Ha Hs]. now rewrite Ha, IH.
Qed.

Lemma asciiText_truncated s :
  asciiText s = true -> asciiText (Go.slice_to 47 s ++ "...") = true.
Proof.
  intros H. now rewrite asciiText_append, asciiText_slice_to.
Qed.

(** ** The table renderer: one row *)

Lemma Scan_length n row : List.length (Scan n row) = n.
Proof.
  unfold Scan. destruct (Nat.eqb_spec (List.length row) n) as [E|E];
    [exact E | apply repeat_length].
Qed.

Lemma formatRow_cons w ws v vals :
  formatRow (w :: ws) (v :: vals)
  = (fst (fitCell w (formatValue v)) :: fst (formatRow ws vals),
     snd (fitCell w (formatValue v)) :: snd (formatRow ws vals)).
Proof.
  cbn [formatRow]. destruct (fitCell w (formatValue v)) as [w' s].
  destruct (formatRow ws vals) as [ws' strs]. reflexivity.
Qed.

Lemma formatRow_length : forall vals ws,
  List.length (fst (formatRow ws vals)) = List.length ws.
Proof.
  induction vals as [|v vals IH]; intros [|w ws]; try reflexivity.
  rewrite formatRow_cons. cbn. now rewrite IH.
Qed.

Lemma formatRow_bound : forall vals ws,
  Forall (fun w => w <= 50) ws ->
  Forall (fun w => w <= 50) (fst (formatRow ws vals)).
Proof.
  induction vals as [|v vals IH]; intros [|w ws] H; try exact H.
  rewrite formatRow_cons. cbn. inversion H; subst.
  constructor; [now apply fitCell_bound | now apply IH].
Qed.

Lemma formatRow_nth : forall vals ws i w v,
  nth_error ws i = Some w ->
  nth_error vals i = Some v ->
  nth_error (fst (formatRow ws vals)) i
    = Some (fst (fitCell w (formatValue v))) /\
  nth_error (snd (formatRow ws vals)) i
    = Some (snd (fitCell w (formatValue v))).
Proof.
  induction vals as [|v0 vals IH]; intros [|w0 ws] [|i] w v Hw Hv;
    try discriminate.
  - rewrite formatRow_cons. cbn in *. inversion Hw; inversion Hv; subst.
    split; reflexivity.
  - rewrite formatRow_cons. cbn in *. now apply IH.
Qed.

(** ** The table renderer: the rows of the loop *)

Lemma formatRows_cons n ws row rows :
  formatRows n ws (row :: rows)
  = (fst (formatRows n (fst (formatRow ws (Scan n row))) rows),
     snd (formatRow ws (Scan n row))
       :: snd (formatRows n (fst (formatRow ws (Scan n row))) rows)).
Proof.
  cbn [formatRows]. destruct (formatRow ws (Scan n row)) as [ws' strs].
  cbn [fst snd]. destruct (formatRows n ws' rows). reflexivity.
Qed.

Lemma formatRows_length n : forall rows ws,
  List.length (fst (formatRows n ws rows)) = List.length ws.
Proof.
  induction rows as [|row rows IH]; intros ws; [reflexivity|].
  rewrite formatRows_cons. cbn [fst]. now rewrite IH, formatRow_length.
Qed.

Lemma formatRows_count n : forall rows ws,
  List.length (snd (formatRows n ws rows)) = List.length rows.
Proof.
  induction rows as [|row rows IH]; intros ws; [reflexivity|].
  rewrite formatRows_cons. cbn. now rewrite IH.
Qed.

Lemma formatRows_bound n : forall rows ws,
  Forall (fun w => w <= 50) ws ->
  Forall (fun w => w <= 50) (fst (formatRows n ws rows)).
Proof.
  induction rows as [|row rows IH]; intros ws H; [exact H|].
  rewrite formatRows_cons. cbn [fst]. apply IH. now apply formatRow_bound.
Qed.

Lemma nth_error_in_range {A} (l : list A) i x n :
  nth_error l i = Some x -> List.length l = n ->
  forall {B} (l' : list B), List.length l' = n -> exists y, nth_error l' i = Some y.
Proof.
  intros H Hl B l' Hl'.
  assert (Hi : (i < List.length l')%nat).
  { rewrite Hl', <- Hl. apply nth_error_Some. congruence. }
  destruct (nth_error l' i) as [y|] eqn:E; [now exists y|].
  apply nth_error_None in E. lia.
Qed.

(** A column whose width is 50 keeps it over any rows, and each of them
    has in that column the text that [fitCell 50] keeps. *)
Lemma formatRows_capped n i : forall rows ws,
  List.length ws = n ->
  nth_error ws i = Some 50 ->
  nth_error (fst (formatRows n ws rows)) i = Some 50 /\
  forall r row v,
    nth_error rows r = Some row ->
    nth_error (Scan n row) i = Some v ->
    exists rowStrs,
      nth_error (snd (formatRows n ws rows)) r = Some rowStrs /\
      nth_error rowStrs i = Some (snd (fitCell 50 (formatValue v))).
Proof.
  induction rows as [|row rows IH]; intros ws Hn Hi.
  - split; [exact Hi|]. intros [|r] row v H; discriminate.
  - rewrite formatRows_cons. cbn [fst snd].
    destruct (nth_error_in_range ws i 50 n Hi Hn (Scan n row) (Scan_length n row))
      as [v0 Hv0].
    destruct (formatRow_nth _ _ _ _ _ Hi Hv0) as [Hw Hs].
    rewrite fitCell_capped in Hw. cbn [fst] in Hw.
    assert (Hn' : List.length (fst (formatRow ws (Scan n row))) = n)
      by now rewrite formatRow_length.
    destruct (IH _ Hn' Hw) as [IHw IHr]. split; [exact IHw|].
    intros [|r] row' v Hrow Hv; cbn in Hrow.
    + inversion Hrow; subst row'. exists (snd (formatRow ws (Scan n row))).
      split; [reflexivity|]. rewrite Hv0 in Hv. inversion Hv; subst v0.
      exact Hs.
    + cbn [nth_error]. now apply IHr with (row := row').
Qed.

(** A value whose text is longer than 50 bytes, anywhere in the rows
    formatted from widths of at most 50: the cell kept is the first 47
    bytes and three dots, and the width of its column is 50 from that row
    on. *)
Lemma formatRows_long n i : forall rows ws r row v,
  List.length ws = n ->
  Forall (fun w => w <= 50) ws ->
  nth_error rows r = Some row ->
  nth_error (Scan n row) i = Some v ->
  50 < Go.len (formatValue v) ->
  nth_error (fst (formatRows n ws (firstn (S r) rows))) i = Some 50 /\
  nth_error (fst (formatRows n ws rows)) i = Some 50 /\
  exists rowStrs,
    nth_error (snd (formatRows n ws rows)) r = Some rowStrs /\
    nth_error rowStrs i = Some (Go.slice_to 47 (formatValue v) ++ "...").
Proof.
  induction rows as [|row0 rows IH]; intros ws r row v Hn Hb Hrow Hv Hlong.
  - destruct r; discriminate.
  - assert (Hn' : List.length (fst (formatRow ws (Scan n row0))) = n)
      by now rewrite formatRow_length.
    destruct r as [|r]; cbn in Hrow.
    + inversion Hrow; subst row0. clear IH.
      destruct (nth_error_in_range (Scan n row) i v n Hv (Scan_length n row)
                  ws Hn) as [w Hw].
      assert (Hw50 : w <= 50).
      { rewrite Forall_forall in Hb. apply Hb. eapply nth_error_In; eauto. }
      destruct (formatRow_nth _ _ _ _ _ Hw Hv) as [Hw' Hs].
      rewrite (fitCell_long w _ Hw50 Hlong) in Hw', Hs. cbn [fst snd] in *.
      split; [|split].
      * cbn [firstn]. rewrite formatRows_cons. cbn [fst formatRows]. exact Hw'.
      * rewrite formatRows_cons. cbn [fst].
        apply (formatRows_capped n i rows _ Hn' Hw').
      * rewrite formatRows_cons. cbn [snd nth_error].
        eexists; split; [reflexivity | exact Hs].
    + assert (Hb' : Forall (fun w => w <= 50) (fst (formatRow ws (Scan n row0))))
        by now apply formatRow_bound.
      destruct (IH _ r row v Hn' Hb' Hrow Hv Hlong) as (H1 & H2 & H3).
      split; [|split].
      * change (firstn (S (S r)) (row0 :: rows))
          with (row0 :: firstn (S r) rows).
        rewrite formatRows_cons. exact H1.
      * rewrite formatRows_cons. exact H2.
      * rewrite formatRows_cons. exact H3.
Qed.

(** ** The table renderer: the loop over the cursor *)

Lemma rowsTaken_stop m have avail :
  Z.of_nat (S have) >= m -> rowsTaken m have (S avail) = 1%nat.
Proof. unfold rowsTaken. lia. Qed.

Lemma rowsTaken_go m have avail :
  Z.of_nat (S have) < m ->
  rowsTaken m have (S avail) = S (rowsTaken m (S have) avail).
Proof. unfold rowsTaken. lia. Qed.

(** The loop formats the first [rowsTaken] rows of the cursor, appends
    them to the rows it holds, and leaves the others in the cursor. *)
Lemma fetchRows_spec m n : forall cursor ws all,
  fetchRows m n cursor ws all
  = (fst (formatRows n ws
            (firstn (rowsTaken m (List.length all) (List.length cursor)) cursor)),
     (all ++ snd (formatRows n ws
            (firstn (rowsTaken m (List.length all) (List.length cursor)) cursor)))%list,
     skipn (rowsTaken m (List.length all) (List.length cursor)) cursor).
Proof.
  induction cursor as [|row cursor IH]; intros ws all.
  - cbn. now rewrite app_nil_r.
  - cbn [fetchRows List.length].
    destruct (formatRow ws (Scan n row)) as [ws' strs] eqn:E.
    rewrite length_app. cbn [List.length].
    replace (List.length all + 1)%nat with (S (List.length all)) by lia.
    destruct (Z.geb_spec (Z.of_nat (S (List.length all))) m) as [Hge|Hlt].
    + rewrite rowsTaken_stop by lia. cbn [firstn skipn formatRows].
      rewrite E. reflexivity.
    + rewrite rowsTaken_go by lia. cbn [firstn skipn].
      rewrite formatRows_cons, E. cbn [fst snd].
      rewrite IH, length_app. cbn [List.length].
      replace (List.length all + 1)%nat with (S (List.length all)) by lia.
      now rewrite <- app_assoc.
Qed.

(** ** The table renderer: the text written *)

Lemma Fprintf_Fprintf c a b : Fprintf (Fprintf c a) b = Fprintf c (a ++ b).
Proof. unfold Fprintf, with_term. cbn. now rewrite append_assoc. Qed.

Lemma printSeparator_text c ws :
  printSeparator c ws = Fprintf c (separatorText ws).
Proof.
  unfold printSeparator, separatorText.
  assert (H : forall ws acc,
    fold_left (fun c width => Fprintf c (Go.Repeat "-" (width + 2) ++ "+"))
      ws (Fprintf c acc)
    = Fprintf c (acc ++ String.concat ""
                  (map (fun w => Go.Repeat "-" (w + 2) ++ "+") ws))).
  { clear ws. induction ws as [|w ws IH]; intros acc.
    - cbn. now rewrite append_nil_r.
    - cbn [fold_left map]. rewrite Fprintf_Fprintf, IH.
      f_equal. rewrite append_assoc. f_equal.
      destruct ws; cbn [map String.concat]; [now rewrite append_nil_r|].
      reflexivity. }
  rewrite H, Fprintf_Fprintf, append_assoc. reflexivity.
Qed.

Lemma concat_cons x l : String.concat "" (x :: l) = x ++ String.concat "" l.
Proof. destruct l; cbn; [now rewrite append_nil_r | reflexivity]. Qed.

Lemma printCells_text c : forall cells ws acc,
  printCells (Fprintf c acc) ws cells = Fprintf c (acc ++ cellsText ws cells).
Proof.
  induction cells as [|cell cells IH]; intros ws acc.
  - destruct ws; cbn [printCells cellsText]; now rewrite append_nil_r.
  - destruct ws as [|w ws]; cbn [printCells cellsText].
    + now rewrite append_nil_r.
    + rewrite Fprintf_Fprintf, IH. now rewrite !append_assoc.
Qed.

Lemma printLine_text c ws cells :
  printLine c ws cells = Fprintf c (lineText ws cells).
Proof.
  unfold printLine, lineText.
  now rewrite printCells_text, Fprintf_Fprintf, append_assoc.
Qed.

Lemma printLines_text c ws : forall allRows acc,
  fold_left (fun c row => printLine c ws row) allRows (Fprintf c acc)
  = Fprintf c (acc ++ String.concat "" (map (lineText ws) allRows)).
Proof.
  induction allRows as [|row allRows IH]; intros acc.
  - cbn [fold_left map String.concat]. now rewrite append_nil_r.
  - cbn [fold_left map]. rewrite printLine_text, Fprintf_Fprintf, IH.
    now rewrite concat_cons, append_assoc.
Qed.

(** What [displayTable] writes and what it leaves in the cursor, from the
    result of its loop. *)
Lemma displayTable_spec (Sprintf_3f : Z -> string) c rows cols startTime
    ws allRows rest :
  fetchRows (maxRows c) (List.length cols) (pending rows)
    (map headerWidth cols) [] = (ws, allRows, rest) ->
  term (fst (displayTable Sprintf_3f c rows cols startTime))
  = term c ++ tableText ws cols allRows
      ++ rowsAffected (Z.of_nat (List.length allRows))
      ++ timingText Sprintf_3f (timingEnabled c)
           (clock c (clockReads c) - startTime)
      ++ nl /\
  snd (displayTable Sprintf_3f c rows cols startTime)
  = {| Columns := Columns rows; pending := rest |}.
Proof.
  intros H. unfold displayTable. rewrite H.
  rewrite !printSeparator_text, printLine_text, !Fprintf_Fprintf.
  rewrite printLines_text, !Fprintf_Fprintf.
  unfold tableText, timingText, time_Since.
  destruct (timingEnabled c) eqn:Et;
    cbn [timingEnabled clock clockReads term Fprintf with_term
         with_clockReads fst snd];
    rewrite Et;
    cbn [timingEnabled clock clockReads term Fprintf with_term
         with_clockReads fst snd];
    rewrite ?append_assoc; split; reflexivity.
Qed.

(** ** The table renderer: widths and truncation *)

Lemma headerWidth_bound col : headerWidth col <= 50.
Proof.
  unfold headerWidth.
  destruct (Z.ltb_spec (Go.len col) 4);
    [cbn; lia | destruct (Z.gtb_spec (Go.len col) 50); lia].
Qed.

Lemma headerWidths_bound cols :
  Forall (fun w => w <= 50) (map headerWidth cols).
Proof.
  apply Forall_forall. intros w Hw. apply in_map_iff in Hw.
  destruct Hw as (col & <- & _). apply headerWidth_bound.
Qed.

(** The rows held after the loop, seen from the cursor: the row at [r]
    beyond the [have] rows held before comes from the row at [r] of the
    cursor, which is one of the rows taken. *)
Lemma nth_error_taken {A B} (held : list B) (new : list B) (cursor : list A)
    k r x y :
  List.length new = List.length (firstn k cursor) ->
  nth_error (held ++ new) (List.length held + r) = Some y ->
  nth_error cursor r = Some x ->
  (r < k)%nat /\ nth_error (firstn k cursor) r = Some x /\
  nth_error new r = Some y.
Proof.
  intros Hlen Hy Hx.
  rewrite nth_error_app2 in Hy by lia.
  replace (List.length held + r - List.length held)%nat with r in Hy by lia.
  assert (Hr : (r < List.length new)%nat).
  { apply nth_error_Some. congruence. }
  rewrite Hlen, length_firstn in Hr.
  assert (Hk : (r < k)%nat) by lia.
  split; [exact Hk|]. split; [|exact Hy].
  rewrite nth_error_firstn. apply Nat.ltb_lt in Hk. now rewrite Hk.
Qed.

(** C5 (as amended). Once the width of a column is 50 it stays 50 to the
    end of the loop, and of every value read after that the column shows
    the first 47 bytes and three dots when the text of the value is longer
    than 50 bytes, and the text as it is otherwise. *)
Theorem capped_column_stays_capped :
  forall (maxRows : Z) (ncols : nat) (cursor : list (list value))
         (colWidths : list Z) (allRows : list (list string)) (i : nat)
         (colWidths' : list Z) (allRows' : list (list string))
         (rest : list (list value)),
    List.length colWidths = ncols ->
    nth_error colWidths i = Some 50 ->
    fetchRows maxRows ncols cursor colWidths allRows
      = (colWidths', allRows', rest) ->
    nth_error colWidths' i = Some 50 /\
    forall (r : nat) (row : list value) (v : value) (rowStrs : list string),
      nth_error cursor r = Some row ->
      nth_error (Scan ncols row) i = Some v ->
      nth_error allRows' (List.length allRows + r) = Some rowStrs ->
      nth_error rowStrs i
      = Some (if Go.len (formatValue v) >? 50
              then Go.slice_to 47 (formatValue v) ++ "..."
              else formatValue v).
Proof.
  intros m n cursor ws all i ws' all' rest Hn Hi H.
  rewrite fetchRows_spec in H. inversion H; subst ws' all' rest; clear H.
  set (k := rowsTaken m (List.length all) (List.length cursor)).
  destruct (formatRows_capped n i (firstn k cursor) ws Hn Hi) as [Hw Hcells].
  split; [exact Hw|].
  intros r row v rowStrs Hrow Hv Hstrs.
  destruct (nth_error_taken all _ cursor k r row rowStrs
              (formatRows_count n _ ws) Hstrs Hrow) as (_ & Hrow' & Hnew).
  destruct (Hcells r row v Hrow' Hv) as (rowStrs' & E & Hcell).
  rewrite E in Hnew. inversion Hnew; subst rowStrs'.
  rewrite fitCell_capped in Hcell. exact Hcell.
Qed.

(** C5, the counterexample.  The first row brings the column to width 50;
    the second row has [ok] in it, and the table shows [ok], which is not
    the first 47 bytes of [ok] followed by three dots.  The third row has
    30 characters of two bytes each: it is cut, at 47 bytes, which is in
    the middle of its 24th character, so lengths are lengths in bytes. *)
Lemma short_value_in_capped_column_is_kept :
  let long := VString (Go.repeatN "x" 60) in
  let accents := Go.repeatN eAcute 30 in
  let cursor := [[long]; [VString "ok"]; [VString accents]] in
  fst (fst (fetchRows 1000 1 (firstn 1 cursor) (map headerWidth ["note"]) []))
    = [50] /\
  fetchRows 1000 1 cursor (map headerWidth ["note"]) []
    = ([50],
       [[Go.repeatN "x" 47 ++ "..."]; ["ok"];
        [Go.repeatN eAcute 23 ++ String "195" "..."]],
       []) /\
  "ok" <> Go.slice_to 47 "ok" ++ "..." /\
  Go.RuneCountInString accents = 30 /\ Go.len accents = 60.
Proof. cbv zeta. repeat split; try reflexivity. discriminate. Qed.

Lemma capped_column_stays_capped_witness :
  (List.length [50; 4] = 2%nat /\ nth_error [50; 4] 0 = Some 50) /\
  nth_error [50; 4] 0 = Some 50 /\
  (forall r row v rowStrs,
     nth_error [[VString "ok"; VNil]] r = Some row ->
     nth_error (Scan 2 row) 0 = Some v ->
     nth_error [["ok"; "NULL"]] (0 + r) = Some rowStrs ->
     nth_error rowStrs 0
     = Some (if Go.len (formatValue v) >? 50
             then Go.slice_to 47 (formatValue v) ++ "..."
             else formatValue v)).
Proof.
  split; [split; reflexivity|].
  exact (capped_column_stays_capped 1000 2 [[VString "ok"; VNil]] [50; 4] [] 0
           [50; 4] [["ok"; "NULL"]] [] eq_refl eq_refl eq_refl).
Defined.

(** C8 (as amended). A value whose text is longer than 50 bytes is kept
    as a cell of exactly 50 bytes that ends in three dots, namely the
    first 47 bytes of the text and the dots; the width of its column is 50
    once its row is processed and at the end of the loop.  When the text is
    ASCII the cell has exactly 50 characters and is printed with no
    padding. *)
Theorem long_cell_is_cut_to_50 :
  forall (maxRows : Z) (cols : list string) (cursor : list (list value))
         (colWidths : list Z) (allRows : list (list string))
         (rest : list (list value)) (r i : nat) (row : list value)
         (v : value) (rowStrs : list string),
    fetchRows maxRows (List.length cols) cursor (map headerWidth cols) []
      = (colWidths, allRows, rest) ->
    nth_error cursor r = Some row ->
    nth_error allRows r = Some rowStrs ->
    nth_error (Scan (List.length cols) row) i = Some v ->
    50 < Go.len (formatValue v) ->
    exists cell,
      nth_error rowStrs i = Some cell /\
      cell = Go.slice_to 47 (formatValue v) ++ "..." /\
      Go.len cell = 50 /\
      Go.HasSuffix cell "..." = true /\
      nth_error
        (fst (formatRows (List.length cols) (map headerWidth cols)
                (firstn (S r) cursor))) i = Some 50 /\
      nth_error colWidths i = Some 50 /\
      (asciiText (formatValue v) = true ->
       Go.RuneCountInString cell = 50 /\ Go.padRight 50 cell = cell).
Proof.
  intros m cols cursor ws all rest r i row v rowStrs H Hrow Hstrs Hv Hlong.
  rewrite fetchRows_spec in H. inversion H; subst ws all rest; clear H.
  cbn [List.length app] in *.
  set (k := rowsTaken m 0 (List.length cursor)) in *.
  destruct (nth_error_taken [] _ cursor k r row rowStrs
              (formatRows_count _ _ _) Hstrs Hrow) as (Hk & Hrow' & Hnew).
  destruct (formatRows_long (List.length cols) i (firstn k cursor)
              (map headerWidth cols) r row v (length_map _ _)
              (headerWidths_bound cols) Hrow' Hv Hlong)
    as (Hafter & Hend & rowStrs' & E & Hcell).
  rewrite E in Hnew. inversion Hnew; subst rowStrs'.
  rewrite firstn_firstn in Hafter.
  replace (Nat.min (S r) k) with (S r) in Hafter by lia.
  exists (Go.slice_to 47 (formatValue v) ++ "...").
  assert (Hrunes : asciiText (formatValue v) = true ->
                   Go.RuneCountInString (Go.slice_to 47 (formatValue v) ++ "...")
                   = 50).
  { intros Ha. rewrite RuneCountInString_ascii by now apply asciiText_truncated.
    now apply len_truncated. }
  repeat split; try assumption.
  - now apply len_truncated.
  - apply HasSuffix_append.
  - now apply Hrunes.
  - apply padRight_exact. now apply Hrunes.
Qed.

(** C8, the counterexample.  A value of 60 characters of two bytes each,
    in a column named [body]: the cell kept has 50 bytes but 27
    characters (23 whole ones, the first byte of the 24th, and the dots),
    and it is printed with 23 spaces after it. *)
Lemma long_accented_cell_has_27_characters :
  let text := Go.repeatN eAcute 60 in
  let cell := Go.repeatN eAcute 23 ++ String "195" "..." in
  Go.RuneCountInString text = 60 /\
  fetchRows 1000 1 [[VString text]] (map headerWidth ["body"]) []
    = ([50], [[cell]], []) /\
  Go.len cell = 50 /\
  Go.RuneCountInString cell = 27 /\
  Go.RuneCountInString cell <> 50 /\
  Go.padRight 50 cell = cell ++ Go.repeatN " " 23.
Proof. cbv zeta. repeat split; try reflexivity. discriminate. Qed.

Lemma long_cell_is_cut_to_50_witness :
  50 < Go.len (formatValue (VBytes (Go.repeatN "ab" 30))) /\
  exists cell,
    nth_error ["1"; Go.repeatN "ab" 23 ++ "a..."] 1 = Some cell /\
    cell = Go.slice_to 47 (Go.repeatN "ab" 30) ++ "..." /\
    Go.len cell = 50 /\
    Go.HasSuffix cell "..." = true /\
    nth_error
      (fst (formatRows 2 (map headerWidth ["id"; "body"])
              (firstn 1 [[VInt64 1; VBytes (Go.repeatN "ab" 30)]]))) 1 = Some 50 /\
    nth_error [4; 50] 1 = Some 50 /\
    (asciiText (formatValue (VBytes (Go.repeatN "ab" 30))) = true ->
     Go.RuneCountInString cell = 50 /\ Go.padRight 50 cell = cell).
Proof.
  split; [reflexivity|].
  exact (long_cell_is_cut_to_50 1000 ["id"; "body"]
           [[VInt64 1; VBytes (Go.repeatN "ab" 30)]]
           [4; 50] [["1"; Go.repeatN "ab" 23 ++ "a..."]] [] 0 1
           [VInt64 1; VBytes (Go.repeatN "ab" 30)]
           (VBytes (Go.repeatN "ab" 30))
           ["1"; Go.repeatN "ab" 23 ++ "a..."]
           eq_refl eq_refl eq_refl eq_refl eq_refl).
Defined.

(** ** The row cap *)

Lemma rowsTaken_cap m avail :
  0 < m -> m < Z.of_nat avail -> rowsTaken m 0 avail = Z.to_nat m.
Proof. unfold rowsTaken. lia. Qed.

Lemma NewCLI_maxRows input d clk host port username password database :
  maxRows (NewCLI input d clk host port username password database) = 1000.
Proof. reflexivity. Qed.


(** C7. With a positive row cap, as the cap of 1000 that [NewCLI] sets, and
    a cursor that has more rows than the cap: the loop keeps the first
    [maxRows] rows of the cursor and no other, the rows beyond them are
    left in the cursor unread, the table written has one line for each row
    kept, and the line under it reports [maxRows]. *)
Theorem displayTable_stops_at_maxRows :
  forall (Sprintf_3f : Z -> string) (c : CLI) (rows : Rows)
         (cols : list string) (startTime : Z),
    0 < maxRows c ->
    maxRows c < Z.of_nat (List.length (pending rows)) ->
    let cap := Z.to_nat (maxRows c) in
    let kept :=
      formatRows (List.length cols) (map headerWidth cols)
        (firstn cap (pending rows)) in
    fetchRows (maxRows c) (List.length cols) (pending rows)
      (map headerWidth cols) []
      = (fst kept, snd kept, skipn cap (pending rows)) /\
    Z.of_nat (List.length (snd kept)) = maxRows c /\
    List.length (map (lineText (fst kept)) (snd kept)) = cap /\
    pending (snd (displayTable Sprintf_3f c rows cols startTime))
      = skipn cap (pending rows) /\
    List.length (pending (snd (displayTable Sprintf_3f c rows cols startTime)))
      = (List.length (pending rows) - cap)%nat /\
    term (fst (displayTable Sprintf_3f c rows cols startTime))
      = term c ++ tableText (fst kept) cols (snd kept)
          ++ rowsAffected (maxRows c)
          ++ timingText Sprintf_3f (timingEnabled c)
               (clock c (clockReads c) - startTime)
          ++ nl.
Proof.
  intros f c rows cols st Hpos Hmore cap kept.
  assert (Hfetch :
    fetchRows (maxRows c) (List.length cols) (pending rows)
      (map headerWidth cols) []
    = (fst kept, snd kept, skipn cap (pending rows))).
  { rewrite fetchRows_spec. cbn [List.length app].
    rewrite (rowsTaken_cap _ _ Hpos Hmore). reflexivity. }
  assert (Hlen : List.length (snd kept) = cap).
  { unfold kept. rewrite formatRows_count, length_firstn. lia. }
  destruct (displayTable_spec f c rows cols st _ _ _ Hfetch) as [Ht Hr].
  split; [exact Hfetch|]. split; [lia|]. split; [now rewrite length_map|].
  split; [now rewrite Hr|]. split; [rewrite Hr; cbn; rewrite length_skipn; lia|].
  rewrite Ht, Hlen. unfold cap. rewrite Z2Nat.id by lia. reflexivity.
Qed.

(** The session that [NewCLI] makes, on a cursor of 1001 rows: 1000 rows
    kept, one left in the cursor, and [(1000 rows affected)]. *)
Lemma displayTable_stops_at_maxRows_witness :
  (0 < maxRows (sampleCLI []) /\
   maxRows (sampleCLI []) < Z.of_nat (List.length (pending (sampleRows 1001)))) /\
  pending (snd (displayTable (fun _ => "0.000") (sampleCLI [])
                  (sampleRows 1001) ["n"] 0))
    = [[VInt64 7]] /\
  rowsAffected (maxRows (sampleCLI [])) = "(1000 rows affected)" ++ nl.
Proof.
  assert (H1 : 0 < maxRows (sampleCLI [])) by reflexivity.
  assert (H2 : maxRows (sampleCLI [])
               < Z.of_nat (List.length (pending (sampleRows 1001))))
    by (vm_compute; reflexivity).
  split; [split; assumption|].
  destruct (displayTable_stops_at_maxRows (fun _ => "0.000") (sampleCLI [])
              (sampleRows 1001) ["n"] 0 H1 H2) as (_ & _ & _ & Hrest & _).
  split; [|reflexivity].
  rewrite Hrest. vm_compute. reflexivity.
Defined.

(** ** The row-count line and the timing line *)

Lemma rowsAffected_plural n :
  2 <= n -> rowsAffected n = "(" ++ Go.itoa n ++ " rows affected)" ++ nl.
Proof.
  intros H. unfold rowsAffected.
  destruct (Z.eqb_spec n 0); [lia|]. destruct (Z.eqb_spec n 1); [lia|].
  reflexivity.
Qed.

(** [executeSQL] on a query that the database answers with a cursor. *)
Lemma executeSQL_query (Sprintf_3f : Z -> string) c sqlStr rows
    ws allRows rest :
  Go.TrimSpace sqlStr <> "" ->
  isQuery (Go.TrimSpace sqlStr) = true ->
  answerQuery (db c) (calls (db c)) (Go.TrimSpace sqlStr) = inr rows ->
  fetchRows (maxRows c) (List.length (Columns rows)) (pending rows)
    (map headerWidth (Columns rows)) [] = (ws, allRows, rest) ->
  term (executeSQL Sprintf_3f c sqlStr)
  = term c ++ tableText ws (Columns rows) allRows
      ++ rowsAffected (Z.of_nat (List.length allRows))
      ++ timingText Sprintf_3f (timingEnabled c)
           (clock c (S (clockReads c)) - clock c (clockReads c))
      ++ nl.
Proof.
  intros Hne Hq Ha Hf. unfold executeSQL, time_Now.
  apply String.eqb_neq in Hne. rewrite Hne, Hq.
  unfold executeQuery, QueryContext.
  cbn [db calls with_clockReads]. rewrite Ha.
  match goal with
  | |- term (fst (displayTable _ ?c' _ _ _)) = _ =>
      destruct (displayTable_spec Sprintf_3f c' rows (Columns rows)
                  (clock c (clockReads c)) ws allRows rest Hf) as [Ht _];
      rewrite Ht
  end.
  reflexivity.
Qed.

(** [executeSQL] on any other statement that the database executes. *)
Lemma executeSQL_command (Sprintf_3f : Z -> string) c sqlStr affected :
  Go.TrimSpace sqlStr <> "" ->
  isQuery (Go.TrimSpace sqlStr) = false ->
  answerExec (db c) (calls (db c)) (Go.TrimSpace sqlStr) = inr affected ->
  term (executeSQL Sprintf_3f c sqlStr)
  = term c ++ rowsAffected affected
      ++ timingText Sprintf_3f (timingEnabled c)
           (clock c (S (clockReads c)) - clock c (clockReads c))
      ++ nl.
Proof.
  intros Hne Hq Ha. unfold executeSQL, time_Now.
  apply String.eqb_neq in Hne. rewrite Hne, Hq.
  unfold executeCommand, ExecContext, time_Since.
  cbn [db calls with_clockReads]. rewrite Ha.
  unfold timingText.
  cbn [timingEnabled clock clockReads term Fprintf with_term with_db
       with_clockReads fst snd].
  destruct (timingEnabled c);
    cbn [timingEnabled clock clockReads term Fprintf with_term with_db
         with_clockReads fst snd];
    rewrite ?append_assoc; reflexivity.
Qed.

Section RowCountAndTiming.

Variable Sprintf_3f : Z -> string.

(** The verb [%.3f] on a duration that is not negative prints seconds with
    three decimals. *)
Hypothesis Sprintf_3f_seconds :
  forall d, 0 <= d -> isSeconds3 (Sprintf_3f d) = true.

(** C9. The row-count line is [(0 rows affected)] for 0, [(1 row
    affected)] for 1 and [(N rows affected)] for every N from 2 on.  A
    statement that the database executes, on the query path as on the
    other, has the terminal end with that line, then the timing line
    [Time: <seconds with three decimals> sec] when timing is enabled and
    nothing when it is not, then an empty line. *)
Theorem row_count_line_and_timing_line :
  forall (c : CLI) (sqlStr : string),
    Go.TrimSpace sqlStr <> "" ->
    clock c (clockReads c) <= clock c (S (clockReads c)) ->
    let timing :=
      timingText Sprintf_3f (timingEnabled c)
        (clock c (S (clockReads c)) - clock c (clockReads c)) in
    (rowsAffected 0 = "(0 rows affected)" ++ nl /\
     rowsAffected 1 = "(1 row affected)" ++ nl /\
     forall n, 2 <= n ->
       rowsAffected n = "(" ++ Go.itoa n ++ " rows affected)" ++ nl) /\
    (if timingEnabled c
     then exists secs,
            timing = "Time: " ++ secs ++ " sec" ++ nl /\
            isSeconds3 secs = true
     else timing = "") /\
    (forall rows ws allRows rest,
       isQuery (Go.TrimSpace sqlStr) = true ->
       answerQuery (db c) (calls (db c)) (Go.TrimSpace sqlStr) = inr rows ->
       fetchRows (maxRows c) (List.length (Columns rows)) (pending rows)
         (map headerWidth (Columns rows)) [] = (ws, allRows, rest) ->
       term (executeSQL Sprintf_3f c sqlStr)
       = term c ++ tableText ws (Columns rows) allRows
           ++ rowsAffected (Z.of_nat (List.length allRows))
           ++ timing ++ nl) /\
    (forall affected,
       isQuery (Go.TrimSpace sqlStr) = false ->
       answerExec (db c) (calls (db c)) (Go.TrimSpace sqlStr) = inr affected ->
       term (executeSQL Sprintf_3f c sqlStr)
       = term c ++ rowsAffected affected ++ timing ++ nl).
Proof.
  intros c sqlStr Hne Hclock timing. split; [|split; [|split]].
  - split; [reflexivity|]. split; [reflexivity|]. apply rowsAffected_plural.
  - subst timing. unfold timingText. destruct (timingEnabled c); [|reflexivity].
    eexists. split; [reflexivity|]. apply Sprintf_3f_seconds. lia.
  - intros rows ws allRows rest Hq Ha Hf.
    now apply executeSQL_query with (rest := rest).
  - intros affected Hq Ha. now apply executeSQL_command.
Qed.

End RowCountAndTiming.

(** With timing enabled, an update that affects three rows: the terminal
    shows the count, the time and an empty line. *)
Lemma row_count_line_and_timing_line_witness :
  let c := with_timingEnabled (sampleCLI []) true in
  (Go.TrimSpace "update t set x = 1" <> "" /\
   clock c (clockReads c) <= clock c (S (clockReads c))) /\
  term (executeSQL (fun _ => "0.001") c "update t set x = 1")
  = "(3 rows affected)" ++ nl ++ "Time: 0.001 sec" ++ nl ++ nl.
Proof.
  cbv zeta.
  assert (H1 : Go.TrimSpace "update t set x = 1" <> "") by discriminate.
  assert (H2 : clock (with_timingEnabled (sampleCLI []) true)
                 (clockReads (with_timingEnabled (sampleCLI []) true))
               <= clock (with_timingEnabled (sampleCLI []) true)
                    (S (clockReads (with_timingEnabled (sampleCLI []) true))))
    by (vm_compute; discriminate).
  split; [split; assumption|].
  destruct (row_count_line_and_timing_line (fun _ => "0.001")
              (fun d _ => eq_refl) (with_timingEnabled (sampleCLI []) true)
              "update t set x = 1" H1 H2) as (_ & _ & _ & Hcmd).
  rewrite (Hcmd 3 eq_refl eq_refl). reflexivity.
Defined.

(** * Further properties of the code *)

(** ** The batch accumulator, line by line *)

Lemma endsBatch_not_blank line :
  endsBatch line = true -> Go.TrimSpace line <> "".
Proof.
  unfold endsBatch, isGO. intros H E. rewrite E in H. discriminate H.
Qed.

(** A line that does not end the batch is gathered and a continuation
    prompt is written; it may be blank, when it is not the first. *)
Lemma readRound_gathers c lines line rest :
  endsBatch line = false ->
  lines <> [] \/ Go.TrimSpace line <> "" ->
  readRound (reading c (Line line :: rest)) lines
  = (NextRound (lines ++ [line])%list, Fprintf (reading c rest) "  -> ").
Proof.
  intros He Hne. unfold endsBatch, isGO in He.
  apply orb_false_iff in He. destruct He as [Hgo Hsemi].
  unfold readRound, ReadLine, Readline, reading.
  cbn [reader rl with_reader].
  assert (Hb : String.eqb (Go.TrimSpace line) ""
               && (List.length lines =? 0)%nat = false).
  { destruct Hne as [Hl|Ht].
    - destruct lines; [contradiction|]. cbn. apply andb_false_r.
    - apply String.eqb_neq in Ht. now rewrite Ht. }
  rewrite Hb, Hgo, Hsemi. reflexivity.
Qed.

(** A line that ends the batch: [GO] is dropped, a line with the
    terminator is kept. *)
Lemma readRound_ends c lines line rest :
  endsBatch line = true ->
  readRound (reading c (Line line :: rest)) lines
  = (Break (if isGO line then lines else (lines ++ [line])%list),
     reading c rest).
Proof.
  intros He. pose proof (endsBatch_not_blank _ He) as Hne.
  apply String.eqb_neq in Hne.
  unfold readRound, ReadLine, Readline, reading.
  cbn [reader rl with_reader]. rewrite Hne. cbn [andb].
  unfold endsBatch in He. unfold isGO in *.
  destruct (String.eqb (Go.ToUpper (Go.TrimSpace line)) "GO").
  - now rewrite removelast_last.
  - cbn [orb] in He. now rewrite He.
Qed.

Lemma continuationPrompts_reading c n input :
  continuationPrompts (reading c input) n
  = reading (continuationPrompts c n) input.
Proof.
  revert c. induction n as [|n IH]; intros c; [reflexivity|].
  cbn [continuationPrompts]. now rewrite Fprintf_reading, IH.
Qed.

Lemma term_continuationPrompts n : forall c,
  term (continuationPrompts c n) = term c ++ Go.repeatN "  -> " n.
Proof.
  induction n as [|n IH]; intros c; cbn [continuationPrompts Go.repeatN].
  - now rewrite append_nil_r.
  - rewrite IH, term_Fprintf. now rewrite append_assoc.
Qed.

Lemma readLoop_batch fuel rest last : forall body c lines,
  Forall (fun l => endsBatch l = false) body ->
  endsBatch last = true ->
  match lines, body with
  | [], l0 :: _ => Go.TrimSpace l0 <> ""
  | _, _ => True
  end ->
  readLoop (List.length body + S fuel)
    (reading c (map Line body ++ Line last :: rest)%list) lines
  = Some (Some (lines ++ body ++ (if isGO last then [] else [last]))%list,
          reading (continuationPrompts c (List.length body)) rest).
Proof.
  induction body as [|l body IH]; intros c lines Hb Hl Hfirst.
  - cbn [List.length map app Nat.add readLoop continuationPrompts].
    rewrite (readRound_ends _ _ _ _ Hl).
    destruct (isGO last); [now rewrite app_nil_r | reflexivity].
  - inversion Hb as [|? ? Hl0 Hb']; subst.
    cbn [List.length map app Nat.add readLoop continuationPrompts].
    rewrite readRound_gathers; [|exact Hl0|].
    + rewrite Fprintf_reading, IH; [|exact Hb'|exact Hl|].
      * now rewrite <- app_assoc.
      * destruct lines; exact I.
    + destruct lines; [right; exact Hfirst | left; discriminate].
Qed.

(** X1. A batch: lines that do not end it, the first of them not blank,
    then a line that does.  [readMultiLine] reads exactly these lines,
    writes one continuation prompt for each line before the last, and
    returns them joined by line feeds, without the [GO] line, trimmed, and
    with one [;] taken off the end. *)
Theorem readMultiLine_batch :
  forall (c : CLI) (body : list string) (last : string)
         (rest : list readlineResult) (fuel : nat),
    Forall (fun l => endsBatch l = false) body ->
    endsBatch last = true ->
    match body with l0 :: _ => Go.TrimSpace l0 <> "" | [] => True end ->
    readMultiLine (List.length body + S fuel)
      (reading c (map Line body ++ Line last :: rest)%list)
    = Some (Go.TrimSuffix
              (Go.TrimSpace
                 (Go.Join (body ++ (if isGO last then [] else [last]))%list nl))
              ";",
            reading (continuationPrompts c (List.length body)) rest).
Proof.
  intros c body last rest fuel Hb Hl Hfirst. unfold readMultiLine.
  rewrite (readLoop_batch fuel rest last body c [] Hb Hl);
    [reflexivity | destruct body; [exact I | exact Hfirst]].
Qed.

Lemma readMultiLine_batch_witness :
  readMultiLine 3
    (reading (sampleCLI []) [Line "SELECT name"; Line ""; Line "  FROM t ;;";
                             Line "next"])
  = Some ("SELECT name" ++ nl ++ nl ++ "  FROM t ;",
          reading (continuationPrompts (sampleCLI []) 2) [Line "next"]).
Proof.
  apply (readMultiLine_batch (sampleCLI []) ["SELECT name"; ""] "  FROM t ;;"
           [Line "next"] 0).
  - repeat constructor.
  - reflexivity.
  - discriminate.
Defined.

Lemma readLoop_waits : forall body fuel c lines,
  Forall (fun l => endsBatch l = false) body ->
  match lines, body with
  | [], l0 :: _ => Go.TrimSpace l0 <> ""
  | _, _ => True
  end ->
  readLoop fuel (reading c (map Line body)) lines = None.
Proof.
  induction body as [|l body IH]; intros fuel c lines Hb Hfirst.
  - apply readLoop_closed.
  - destruct fuel as [|fuel]; [reflexivity|].
    inversion Hb as [|? ? Hl Hb']; subst.
    cbn [map readLoop]. rewrite readRound_gathers; [|exact Hl|].
    + rewrite Fprintf_reading. apply IH; [exact Hb'|].
      destruct lines; exact I.
    + destruct lines; [right; exact Hfirst | left; discriminate].
Qed.

(** X2. Input that holds no line ending a batch, and whose first line is
    not blank: however long [readMultiLine] runs it has not returned a
    statement.  It has gathered every line and, at the end of the input,
    goes on reading. *)
Theorem readMultiLine_waits_for_a_terminator :
  forall (c : CLI) (body : list string) (fuel : nat),
    Forall (fun l => endsBatch l = false) body ->
    match body with l0 :: _ => Go.TrimSpace l0 <> "" | [] => True end ->
    readMultiLine fuel (reading c (map Line body)) = None.
Proof.
  intros c body fuel Hb Hfirst. unfold readMultiLine.
  rewrite readLoop_waits; [reflexivity | exact Hb|].
  destruct body; [exact I | exact Hfirst].
Qed.

Lemma readMultiLine_waits_for_a_terminator_witness :
  readMultiLine 50
    (reading (sampleCLI []) (map Line ["SELECT 1"; "FROM t"; ""; "go on"]))
  = None.
Proof.
  apply (readMultiLine_waits_for_a_terminator (sampleCLI [])
           ["SELECT 1"; "FROM t"; ""; "go on"] 50).
  - repeat constructor.
  - discriminate.
Defined.

(** X3. A first line that is blank, that is [GO] alone, or that is [;]
    alone gives the empty statement: [readMultiLine] returns it having
    read that one line and written nothing, and [Start], having written
    what fmt makes of the prompt, goes to its next prompt with the
    database and the settings untouched. *)
Theorem empty_statement_reprompts :
  forall (Sprintf_3f : Z -> string) (Sprintf_format : string -> string)
         (c : CLI) (line : string) (rest : list readlineResult) (fuel : nat),
    Go.TrimSpace line = "" \/ isGO line = true \/ Go.TrimSpace line = ";" ->
    readMultiLine (S fuel) (reading c (Line line :: rest))
      = Some ("", reading c rest) /\
    Start Sprintf_3f Sprintf_format (S (S fuel))
      (reading c (Line line :: rest))
      = Start Sprintf_3f Sprintf_format (S fuel)
          (reading (Fprintf c (Sprintf_format (getPrompt c))) rest).
Proof.
  intros f g c line rest fuel H.
  assert (R : forall c, readMultiLine (S fuel) (reading c (Line line :: rest))
                        = Some ("", reading c rest)).
  { clear c. intros c. unfold readMultiLine. cbn [readLoop].
    destruct H as [H|[H|H]].
    - unfold readRound, ReadLine, Readline, reading.
      cbn [reader rl with_reader]. rewrite H. reflexivity.
    - assert (He : endsBatch line = true)
        by (unfold endsBatch; now rewrite H).
      rewrite (readRound_ends _ _ _ _ He), H. reflexivity.
    - assert (Hgo : isGO line = false) by (unfold isGO; now rewrite H).
      assert (He : endsBatch line = true)
        by (unfold endsBatch; now rewrite Hgo, H).
      rewrite (readRound_ends _ _ _ _ He), Hgo.
      cbn [app Go.Join String.concat]. now rewrite H. }
  split; [apply R|].
  cbn [Start]. change (getPrompt (reading c (Line line :: rest)))
    with (getPrompt c).
  rewrite Fprintf_reading, R. reflexivity.
Qed.

Lemma empty_statement_reprompts_witness :
  readMultiLine 1 (reading (sampleCLI []) [Line "  go  "; Line "exit;"])
    = Some ("", reading (sampleCLI []) [Line "exit;"]) /\
  Start (fun _ => "0.000") verbatim 3
    (reading (sampleCLI []) [Line " ; "; Line "exit;"])
    = Some (None,
            Fprintf (reading (sampleCLI []) []) ("master> master> " ++ nl)).
Proof.
  split.
  - apply (proj1 (empty_statement_reprompts (fun _ => "0.000") verbatim
                    (sampleCLI [])
                    "  go  " [Line "exit;"] 0 (or_intror (or_introl eq_refl)))).
  - rewrite (proj2 (empty_statement_reprompts (fun _ => "0.000") verbatim
                      (sampleCLI [])
                      " ; " [Line "exit;"] 1 (or_intror (or_intror eq_refl)))).
    reflexivity.
Defined.

Lemma readLoop_gathers fuel input : forall body c lines,
  Forall (fun l => endsBatch l = false) body ->
  match lines, body with
  | [], l0 :: _ => Go.TrimSpace l0 <> ""
  | _, _ => True
  end ->
  readLoop (List.length body + fuel)
    (reading c (map Line body ++ input)%list) lines
  = readLoop fuel (reading (continuationPrompts c (List.length body)) input)
      (lines ++ body)%list.
Proof.
  induction body as [|l body IH]; intros c lines Hb Hfirst.
  - cbn. now rewrite app_nil_r.
  - inversion Hb as [|? ? Hl0 Hb']; subst.
    cbn [List.length map app Nat.add readLoop continuationPrompts].
    rewrite readRound_gathers; [|exact Hl0|].
    + rewrite Fprintf_reading, IH; [|exact Hb'|].
      * now rewrite <- app_assoc.
      * destruct lines; exact I.
    + destruct lines; [right; exact Hfirst | left; discriminate].
Qed.

(** X4. An error of the line source other than interrupt and end of input
    abandons the batch: the lines gathered so far are dropped,
    [readMultiLine] returns the empty statement, nothing is sent to the
    database, and [Start] does not return but goes to its next prompt. *)
Theorem read_error_abandons_the_batch :
  forall (Sprintf_3f : Z -> string) (Sprintf_format : string -> string)
         (c : CLI) (body : list string)
         (err : error) (rest : list readlineResult) (fuel : nat),
    Forall (fun l => endsBatch l = false) body ->
    match body with l0 :: _ => Go.TrimSpace l0 <> "" | [] => True end ->
    let input := (map Line body ++ OtherError err :: rest)%list in
    readMultiLine (List.length body + S fuel) (reading c input)
      = Some ("", reading (continuationPrompts c (List.length body)) rest) /\
    Start Sprintf_3f Sprintf_format (S (List.length body + S fuel))
      (reading c input)
      = Start Sprintf_3f Sprintf_format (List.length body + S fuel)
          (reading
             (continuationPrompts
                (Fprintf c (Sprintf_format (getPrompt c))) (List.length body))
             rest).
Proof.
  intros f g c body err rest fuel Hb Hfirst input.
  assert (R : forall c,
    readMultiLine (List.length body + S fuel) (reading c input)
    = Some ("", reading (continuationPrompts c (List.length body)) rest)).
  { clear c. intros c. unfold readMultiLine, input.
    rewrite readLoop_gathers;
      [|exact Hb | destruct body; [exact I | exact Hfirst]].
    reflexivity. }
  split; [apply R|].
  cbn [Start]. change (getPrompt (reading c input)) with (getPrompt c).
  rewrite Fprintf_reading, R. reflexivity.
Qed.

Lemma read_error_abandons_the_batch_witness :
  readMultiLine 2
    (reading (sampleCLI []) [Line "DROP TABLE t"; OtherError "read: broken pipe";
                             Line "exit;"])
  = Some ("", reading (continuationPrompts (sampleCLI []) 1) [Line "exit;"]).
Proof.
  assert (Hb : Forall (fun l => endsBatch l = false) ["DROP TABLE t"])
    by (repeat constructor).
  assert (Hfirst : Go.TrimSpace "DROP TABLE t" <> "") by discriminate.
  exact (proj1 (read_error_abandons_the_batch (fun _ => "0.000") verbatim
                  (sampleCLI [])
                  ["DROP TABLE t"] "read: broken pipe" [Line "exit;"] 0
                  Hb Hfirst)).
Defined.

(** ** What the batch accumulator leaves alone *)

Lemma readRound_frame c lines :
  let c' := snd (readRound c lines) in
  db c' = db c /\ database c' = database c /\
  timingEnabled c' = timingEnabled c /\ maxRows c' = maxRows c /\
  clockReads c' = clockReads c /\
  term c' = term c ++ match fst (readRound c lines) with
                      | NextRound _ => "  -> "
                      | _ => ""
                      end.
Proof.
  unfold readRound. destruct (ReadLine (reader c)) as [[line err] r].
  destruct err as [e|].
  - cbn. now rewrite append_nil_r.
  - destruct (String.eqb (Go.TrimSpace line) "" && (List.length lines =? 0)%nat);
      [cbn; now rewrite append_nil_r|].
    destruct (String.eqb (Go.ToUpper (Go.TrimSpace line)) "GO");
      [cbn; now rewrite append_nil_r|].
    destruct (Go.HasSuffix (Go.TrimSpace line) ";");
      cbn; rewrite ?append_nil_r; repeat split; reflexivity.
Qed.

Lemma readLoop_frame : forall fuel c lines res c',
  readLoop fuel c lines = Some (res, c') ->
  db c' = db c /\ database c' = database c /\
  timingEnabled c' = timingEnabled c /\ maxRows c' = maxRows c /\
  clockReads c' = clockReads c /\
  exists n, term c' = term c ++ Go.repeatN "  -> " n.
Proof.
  induction fuel as [|fuel IH]; intros c lines res c' H; [discriminate|].
  cbn [readLoop] in H.
  pose proof (readRound_frame c lines) as F. cbv zeta in F.
  destruct (readRound c lines) as [o c1]. cbn [fst snd] in F.
  destruct F as (F1 & F2 & F3 & F4 & F5 & F6).
  destruct o as [|ls|ls].
  - inversion H; subst. repeat split; try assumption.
    exists O. exact F6.
  - inversion H; subst. repeat split; try assumption.
    exists O. exact F6.
  - destruct (IH _ _ _ _ H) as (G1 & G2 & G3 & G4 & G5 & n & G6).
    repeat split; try congruence.
    exists (S n). rewrite G6, F6, append_assoc. reflexivity.
Qed.

(** X5. Whatever it reads, [readMultiLine] only consumes input and writes
    continuation prompts: when it returns, the database handle with its
    log of calls, the database name, the timing flag, the row cap and the
    clock are the ones it was given, and the terminal has grown by a
    number of continuation prompts and nothing else. *)
Theorem readMultiLine_only_reads_and_prompts :
  forall (fuel : nat) (c c' : CLI) (sqlStr : string),
    readMultiLine fuel c = Some (sqlStr, c') ->
    db c' = db c /\ database c' = database c /\
    timingEnabled c' = timingEnabled c /\ maxRows c' = maxRows c /\
    clockReads c' = clockReads c /\
    exists n, term c' = term c ++ Go.repeatN "  -> " n.
Proof.
  intros fuel c c' s H. unfold readMultiLine in H.
  destruct (readLoop fuel c []) as [[res c1]|] eqn:E; [|discriminate].
  apply readLoop_frame in E.
  destruct res; inversion H; subst; exact E.
Qed.

Lemma readMultiLine_only_reads_and_prompts_witness :
  let c := sampleCLI [Line "UPDATE t"; Line "SET x = 1"; Line "go"] in
  let c' := reading (continuationPrompts (sampleCLI []) 2) [] in
  db c' = db c /\ database c' = database c /\
  timingEnabled c' = timingEnabled c /\ maxRows c' = maxRows c /\
  clockReads c' = clockReads c /\
  exists n, term c' = term c ++ Go.repeatN "  -> " n.
Proof.
  exact (readMultiLine_only_reads_and_prompts 3
           (sampleCLI [Line "UPDATE t"; Line "SET x = 1"; Line "go"])
           (reading (continuationPrompts (sampleCLI []) 2) [])
           ("UPDATE t" ++ nl ++ "SET x = 1") eq_refl).
Defined.

(** ** The classifier and letter case *)

Lemma isSpace_upperByte a : Go.isSpace (Go.upperByte a) = Go.isSpace a.
Proof. destruct a as [[] [] [] [] [] [] [] []]; reflexivity. Qed.

Lemma isSpace_lowerByte a : Go.isSpace (Go.lowerByte a) = Go.isSpace a.
Proof. destruct a as [[] [] [] [] [] [] [] []]; reflexivity. Qed.

Lemma upperByte_upperByte a : Go.upperByte (Go.upperByte a) = Go.upperByte a.
Proof. destruct a as [[] [] [] [] [] [] [] []]; reflexivity. Qed.

Lemma upperByte_lowerByte a : Go.upperByte (Go.lowerByte a) = Go.upperByte a.
Proof. destruct a as [[] [] [] [] [] [] [] []]; reflexivity. Qed.

Lemma lowerByte_upperByte a : Go.lowerByte (Go.upperByte a) = Go.lowerByte a.
Proof. destruct a as [[] [] [] [] [] [] [] []]; reflexivity. Qed.

Lemma mapBytes_mapBytes f g h s :
  (forall a, f (g a) = h a) ->
  Go.mapBytes f (Go.mapBytes g s) = Go.mapBytes h s.
Proof.
  intros H. induction s as [|a s IH]; cbn; [reflexivity | now rewrite H, IH].
Qed.

(** Trimming commutes with a byte map that keeps white space white space
    and the rest not. *)
Lemma trimLeft_mapBytes f s :
  (forall a, Go.isSpace (f a) = Go.isSpace a) ->
  Go.trimLeft (Go.mapBytes f s) = Go.mapBytes f (Go.trimLeft s).
Proof.
  intros H. induction s as [|a s IH]; [reflexivity|].
  cbn [Go.mapBytes Go.trimLeft]. rewrite H.
  destruct (Go.isSpace a); [exact IH | reflexivity].
Qed.

Lemma trimRight_mapBytes f s :
  (forall a, Go.isSpace (f a) = Go.isSpace a) ->
  Go.trimRight (Go.mapBytes f s) = Go.mapBytes f (Go.trimRight s).
Proof.
  intros H. induction s as [|a s IH]; [reflexivity|].
  cbn [Go.mapBytes]. rewrite !trimRight_cons, IH, H.
  destruct (Go.trimRight s); cbn [Go.mapBytes];
    [destruct (Go.isSpace a)|]; reflexivity.
Qed.

Lemma TrimSpace_mapBytes f s :
  (forall a, Go.isSpace (f a) = Go.isSpace a) ->
  Go.TrimSpace (Go.mapBytes f s) = Go.mapBytes f (Go.TrimSpace s).
Proof.
  intros H. unfold Go.TrimSpace.
  now rewrite trimLeft_mapBytes, trimRight_mapBytes.
Qed.

(** X6. The classification of an ASCII statement depends neither on the
    case of its letters nor on the white space around it. *)
Theorem isQuery_ignores_case_and_margins :
  forall sqlStr : string,
    asciiText sqlStr = true ->
    isQuery (Go.ToUpper sqlStr) = isQuery sqlStr /\
    isQuery (Go.ToLower sqlStr) = isQuery sqlStr /\
    isQuery (Go.TrimSpace sqlStr) = isQuery sqlStr.
Proof.
  intros s _. unfold isQuery, Go.ToUpper, Go.ToLower. repeat split.
  - rewrite (TrimSpace_mapBytes _ _ isSpace_upperByte).
    now rewrite (mapBytes_mapBytes _ _ _ _ upperByte_upperByte).
  - rewrite (TrimSpace_mapBytes _ _ isSpace_lowerByte).
    now rewrite (mapBytes_mapBytes _ _ _ _ upperByte_lowerByte).
  - now rewrite TrimSpace_idem.
Qed.

Lemma isQuery_ignores_case_and_margins_witness :
  asciiText "  Select * From t " = true /\
  isQuery "  SELECT * FROM T " = true /\
  isQuery "  select * from t " = true /\
  isQuery "Select * From t" = true.
Proof.
  destruct (isQuery_ignores_case_and_margins "  Select * From t " eq_refl)
    as (Hu & Hl & Ht).
  split; [reflexivity|]. split; [exact Hu|]. split; [exact Hl | exact Ht].
Defined.

(** X7. A statement that begins with [EXEC], in any letter case and after
    any white space, is never classified as a query: every call of a
    stored procedure takes the path of [executeCommand]. *)
Theorem isQuery_false_on_EXEC :
  forall sqlStr : string,
    Go.HasPrefix (Go.ToUpper (Go.TrimSpace sqlStr)) "EXEC" = true ->
    isQuery sqlStr = false.
Proof.
  intros s H. rewrite isQuery_keywords_only.
  destruct (HasPrefix_inv _ _ H) as [r Hr]. rewrite Hr. reflexivity.
Qed.

Lemma isQuery_false_on_EXEC_witness :
  isQuery "  exec sp_databases" = false /\
  isQuery "Execute sp_help 'orders'" = false.
Proof.
  split.
  - exact (isQuery_false_on_EXEC "  exec sp_databases" eq_refl).
  - exact (isQuery_false_on_EXEC "Execute sp_help 'orders'" eq_refl).
Defined.

(** ** The [timing] command *)

(** X8. [timing], in any letter case and with any white space around it,
    flips the timing flag and says which way; given twice it leaves the
    flag as it was, and neither time is the database or its name
    touched. *)
Theorem timing_twice_restores_the_flag :
  forall (c : CLI) (cmd : string),
    Go.ToLower (Go.TrimSpace cmd) = "timing" ->
    let c1 := snd (handleSpecialCommand c cmd) in
    let c2 := snd (handleSpecialCommand c1 cmd) in
    timingEnabled c1 = negb (timingEnabled c) /\
    term c1 = term c ++ (if timingEnabled c then "Timing disabled"
                         else "Timing enabled") ++ nl /\
    timingEnabled c2 = timingEnabled c /\
    term c2 = term c1 ++ (if timingEnabled c then "Timing enabled"
                          else "Timing disabled") ++ nl /\
    db c2 = db c /\ database c2 = database c /\ maxRows c2 = maxRows c.
Proof.
  intros c cmd H. unfold handleSpecialCommand. rewrite H.
  cbn [String.eqb Ascii.eqb Bool.eqb orb andb].
  destruct (timingEnabled c) eqn:E; cbn; rewrite ?E; cbn;
    repeat split; reflexivity.
Qed.

Lemma timing_twice_restores_the_flag_witness :
  let c1 := snd (handleSpecialCommand (sampleCLI []) " TIMING ") in
  let c2 := snd (handleSpecialCommand c1 " TIMING ") in
  timingEnabled c1 = true /\
  timingEnabled c2 = false /\
  term c2 = "Timing enabled" ++ nl ++ "Timing disabled" ++ nl.
Proof.
  destruct (timing_twice_restores_the_flag (sampleCLI []) " TIMING " eq_refl)
    as (H1 & _ & H2 & H3 & _).
  cbv zeta in *. split; [exact H1|]. split; [exact H2|].
  rewrite H3. reflexivity.
Defined.

(** ** [use] always comes with a name *)

Lemma fieldsFrom_trimRight : forall s cur,
  Go.fieldsFrom cur (Go.trimRight s) = Go.fieldsFrom cur s.
Proof.
  induction s as [|a s IH]; intros cur; [reflexivity|].
  rewrite trimRight_cons. cbn [Go.fieldsFrom].
  destruct (Go.trimRight s) as [|b t] eqn:E.
  - destruct (Go.isSpace a) eqn:Ea.
    + rewrite <- IH. cbn [Go.fieldsFrom Go.closeField]. reflexivity.
    + cbn [Go.fieldsFrom]. rewrite Ea, <- IH. reflexivity.
  - cbn [Go.fieldsFrom]. destruct (Go.isSpace a); now rewrite <- !IH.
Qed.

Lemma Fields_trimLeft s : Go.Fields (Go.trimLeft s) = Go.Fields s.
Proof.
  unfold Go.Fields. induction s as [|a s IH]; [reflexivity|].
  cbn [Go.trimLeft Go.fieldsFrom].
  destruct (Go.isSpace a) eqn:Ea;
    [exact IH | cbn [Go.fieldsFrom]; now rewrite Ea].
Qed.

Lemma Fields_TrimSpace s : Go.Fields (Go.TrimSpace s) = Go.Fields s.
Proof.
  unfold Go.TrimSpace. rewrite <- (Fields_trimLeft s).
  unfold Go.Fields. apply fieldsFrom_trimRight.
Qed.

Lemma trimRight_blank s : hasNonSpace s = false -> Go.trimRight s = "".
Proof.
  induction s as [|a s IH]; [reflexivity|]. cbn [hasNonSpace].
  intros H. apply orb_false_iff in H. destruct H as [Ha Hs].
  rewrite trimRight_cons, (IH Hs).
  apply negb_false_iff in Ha. now rewrite Ha.
Qed.

Lemma fieldsFrom_nonempty : forall s cur,
  hasNonSpace s = true -> Go.fieldsFrom cur s <> [].
Proof.
  assert (C : forall s cur, cur <> "" -> Go.fieldsFrom cur s <> []).
  { induction s as [|a s IH]; intros cur Hc; cbn [Go.fieldsFrom].
    - destruct cur; [contradiction | discriminate].
    - destruct (Go.isSpace a); [|apply IH; discriminate].
      destruct cur; [contradiction | discriminate]. }
  induction s as [|a s IH]; intros cur H; [discriminate|].
  cbn [hasNonSpace] in H. cbn [Go.fieldsFrom].
  destruct (Go.isSpace a) eqn:Ea.
  - cbn [negb orb] in H. destruct cur; cbn [Go.closeField];
      [now apply IH | discriminate].
  - apply C. discriminate.
Qed.

Lemma lowerByte_space a : Go.lowerByte a = " "%char -> a = " "%char.
Proof.
  destruct a as [[] [] [] [] [] [] [] []]; vm_compute; intros H;
    first [reflexivity | discriminate H].
Qed.

Lemma lowerByte_letter_not_space a b :
  Go.lowerByte a = b -> Go.isSpace b = false -> Go.isSpace a = false.
Proof. intros <- H. now rewrite isSpace_lowerByte in H. Qed.

Lemma use_has_two_fields cmd :
  Go.HasPrefix (Go.ToLower (Go.TrimSpace cmd)) "use " = true ->
  exists verb name more, Go.Fields cmd = verb :: name :: more.
Proof.
  intros H. rewrite <- Fields_TrimSpace.
  pose proof (TrimSpace_idem cmd) as Hidem.
  destruct (HasPrefix_inv _ _ H) as [r Hr].
  destruct (Go.TrimSpace cmd) as [|a1 [|a2 [|a3 [|a4 t]]]] eqn:Et;
    try discriminate Hr.
  unfold Go.ToLower in Hr. cbn [Go.mapBytes append] in Hr.
  injection Hr as H1 H2 H3 H4 Hrest.
  apply lowerByte_space in H4. subst a4.
  pose proof (lowerByte_letter_not_space _ _ H1 eq_refl) as S1.
  pose proof (lowerByte_letter_not_space _ _ H2 eq_refl) as S2.
  pose proof (lowerByte_letter_not_space _ _ H3 eq_refl) as S3.
  assert (Ht : hasNonSpace t = true).
  { destruct (hasNonSpace t) eqn:E; [reflexivity|]. exfalso.
    unfold Go.TrimSpace in Hidem. cbn [Go.trimLeft] in Hidem.
    rewrite S1 in Hidem.
    rewrite !trimRight_cons, (trimRight_blank _ E), S3 in Hidem.
    cbn in Hidem. discriminate Hidem. }
  unfold Go.Fields. cbn [Go.fieldsFrom]. rewrite S1, S2, S3.
  cbn [Go.isSpace nat_of_ascii Go.closeField Go.revString].
  change (Go.isSpace " ") with true. cbn iota.
  destruct (Go.fieldsFrom "" t) as [|name more] eqn:Ef.
  - exfalso. now apply (fieldsFrom_nonempty t "" Ht).
  - cbn [Go.closeField]. now eexists _, name, more.
Qed.

(** X9. An ASCII statement that [handleSpecialCommand] takes for a [use]
    command always has a name after the verb: the test on the number of
    fields never fails, and the command always reaches [useDatabase], with
    the second field as the name, in the letter case it was typed in.  The
    word [use] alone is not taken for a meta-command at all. *)
Theorem use_command_always_has_a_name :
  forall (c : CLI) (cmd : string),
    asciiText cmd = true ->
    (Go.HasPrefix (Go.ToLower (Go.TrimSpace cmd)) "use " = true ->
     exists name,
       nth_error (Go.Fields cmd) 1 = Some name /\
       handleSpecialCommand c cmd = (true, useDatabase c name)) /\
    (Go.ToLower (Go.TrimSpace cmd) = "use" ->
     handleSpecialCommand c cmd = (false, c)).
Proof.
  intros c cmd _. split.
  - intros H. destruct (use_has_two_fields cmd H) as (verb & name & more & E).
    exists name. assert (Hn : nth_error (Go.Fields cmd) 1 = Some name)
      by now rewrite E.
    split; [exact Hn | now apply handleSpecialCommand_use].
  - intros H. unfold handleSpecialCommand. now rewrite H.
Qed.

Lemma use_command_always_has_a_name_witness :
  (asciiText "  Use Sales  archive " = true /\ asciiText " USE " = true) /\
  (exists name,
     nth_error (Go.Fields "  Use Sales  archive ") 1 = Some name /\
     handleSpecialCommand (sampleCLI []) "  Use Sales  archive "
     = (true, useDatabase (sampleCLI []) name)) /\
  handleSpecialCommand (sampleCLI []) " USE " = (false, sampleCLI []).
Proof.
  split; [split; reflexivity|]. split.
  - exact (proj1 (use_command_always_has_a_name (sampleCLI [])
                    "  Use Sales  archive " eq_refl) eq_refl).
  - exact (proj2 (use_command_always_has_a_name (sampleCLI []) " USE "
                    eq_refl) eq_refl).
Defined.

(** ** The executor: what is sent, what is written, what is kept *)

Lemma displayTable_frame (Sprintf_3f : Z -> string) c rows cols startTime :
  let c' := fst (displayTable Sprintf_3f c rows cols startTime) in
  db c' = db c /\ database c' = database c /\
  timingEnabled c' = timingEnabled c /\ maxRows c' = maxRows c /\
  reader c' = reader c /\
  clockReads c'
  = if timingEnabled c then S (clockReads c) else clockReads c.
Proof.
  unfold displayTable.
  destruct (fetchRows (maxRows c) (List.length cols) (pending rows)
              (map headerWidth cols) []) as [[ws allRows] rest].
  rewrite !printSeparator_text, printLine_text, !Fprintf_Fprintf.
  rewrite printLines_text, !Fprintf_Fprintf.
  unfold time_Since.
  cbn [timingEnabled Fprintf with_term].
  destruct (timingEnabled c) eqn:Et; cbn; rewrite ?Et;
    repeat split; reflexivity.
Qed.

Lemma printError_frame c err :
  let c' := printError c err in
  db c' = db c /\ database c' = database c /\
  timingEnabled c' = timingEnabled c /\ maxRows c' = maxRows c /\
  reader c' = reader c /\ clockReads c' = clockReads c /\
  term c' = term c ++ "Msg 50000, Level 16, State 1" ++ nl ++ err ++ nl ++ nl.
Proof.
  unfold printError. rewrite Fprintf_Fprintf.
  cbn [db database timingEnabled maxRows reader clockReads term Fprintf
       with_term].
  rewrite !append_assoc. repeat split; reflexivity.
Qed.

(** X10. [executeSQL] sends a statement to the database exactly once, as
    the statement with the white space around it removed: through
    [QueryContext] when [isQuery] holds of it and through [ExecContext]
    when not.  A statement that is all white space is not sent. *)
Theorem executeSQL_calls_the_database_once :
  forall (Sprintf_3f : Z -> string) (c : CLI) (sqlStr : string),
    calls (db (executeSQL Sprintf_3f c sqlStr))
    = if String.eqb (Go.TrimSpace sqlStr) "" then calls (db c)
      else (calls (db c)
              ++ [if isQuery (Go.TrimSpace sqlStr)
                  then QueryCall (Go.TrimSpace sqlStr)
                  else ExecCall (Go.TrimSpace sqlStr)])%list.
Proof.
  intros f c sqlStr. unfold executeSQL, time_Now.
  destruct (String.eqb (Go.TrimSpace sqlStr) ""); [reflexivity|].
  destruct (isQuery (Go.TrimSpace sqlStr)).
  - unfold executeQuery, QueryContext. cbn [db calls with_clockReads].
    destruct (answerQuery (db c) (calls (db c)) (Go.TrimSpace sqlStr))
      as [err|rows].
    + reflexivity.
    + match goal with
      | |- calls (db (fst (displayTable _ ?c' _ _ _))) = _ =>
          destruct (displayTable_frame f c' rows (Columns rows)
                      (clock c (clockReads c))) as (Hdb & _)
      end.
      rewrite Hdb. reflexivity.
  - unfold executeCommand, ExecContext, time_Since.
    cbn [db calls with_clockReads].
    destruct (answerExec (db c) (calls (db c)) (Go.TrimSpace sqlStr));
      [reflexivity|].
    cbn [timingEnabled Fprintf with_term with_db with_clockReads fst snd].
    destruct (timingEnabled c); reflexivity.
Qed.

(** X11. When the database answers a statement with an error, on either
    path, [executeSQL] writes the header [Msg 50000, Level 16, State 1],
    the text of the error and an empty line, and nothing else: no row
    count, and no timing line even with timing enabled. *)
Theorem executeSQL_error_block :
  forall (Sprintf_3f : Z -> string) (c : CLI) (sqlStr : string) (err : error),
    Go.TrimSpace sqlStr <> "" ->
    (if isQuery (Go.TrimSpace sqlStr)
     then answerQuery (db c) (calls (db c)) (Go.TrimSpace sqlStr) = inl err
     else answerExec (db c) (calls (db c)) (Go.TrimSpace sqlStr) = inl err) ->
    term (executeSQL Sprintf_3f c sqlStr)
    = term c ++ "Msg 50000, Level 16, State 1" ++ nl ++ err ++ nl ++ nl.
Proof.
  intros f c sqlStr err Hne Ha. unfold executeSQL, time_Now.
  apply String.eqb_neq in Hne. rewrite Hne.
  destruct (isQuery (Go.TrimSpace sqlStr)).
  - unfold executeQuery, QueryContext. cbn [db calls with_clockReads].
    rewrite Ha.
    match goal with
    | |- term (printError ?c' _) = _ =>
        destruct (printError_frame c' err) as (_ & _ & _ & _ & _ & _ & Ht)
    end.
    rewrite Ht. reflexivity.
  - unfold executeCommand, ExecContext. cbn [db calls with_clockReads].
    rewrite Ha.
    match goal with
    | |- term (printError ?c' _) = _ =>
        destruct (printError_frame c' err) as (_ & _ & _ & _ & _ & _ & Ht)
    end.
    rewrite Ht. reflexivity.
Qed.

Lemma executeSQL_error_block_witness :
  term (executeSQL (fun _ => "0.000") (with_timingEnabled (sampleCLI []) true)
          " select * from nowhere ")
  = "Msg 50000, Level 16, State 1" ++ nl ++ "no result" ++ nl ++ nl.
Proof.
  assert (Hne : Go.TrimSpace " select * from nowhere " <> "") by discriminate.
  exact (executeSQL_error_block (fun _ => "0.000")
           (with_timingEnabled (sampleCLI []) true)
           " select * from nowhere " "no result" Hne eq_refl).
Defined.

Lemma executeSQL_frame (Sprintf_3f : Z -> string) c sqlStr :
  let c' := executeSQL Sprintf_3f c sqlStr in
  database c' = database c /\ timingEnabled c' = timingEnabled c /\
  maxRows c' = maxRows c /\ reader c' = reader c.
Proof.
  unfold executeSQL, time_Now.
  destruct (String.eqb (Go.TrimSpace sqlStr) "");
    [repeat split; reflexivity|].
  destruct (isQuery (Go.TrimSpace sqlStr)).
  - unfold executeQuery, QueryContext. cbn [db calls with_clockReads].
    destruct (answerQuery (db c) (calls (db c)) (Go.TrimSpace sqlStr))
      as [err|rows].
    + repeat split; reflexivity.
    + match goal with
      | |- context [displayTable _ ?c' _ _ _] =>
          destruct (displayTable_frame Sprintf_3f c' rows (Columns rows)
                      (clock c (clockReads c)))
            as (_ & Hd & Ht & Hm & Hr & _)
      end.
      cbv zeta. rewrite Hd, Ht, Hm, Hr. repeat split; reflexivity.
  - unfold executeCommand, ExecContext, time_Since.
    cbn [db calls with_clockReads].
    destruct (answerExec (db c) (calls (db c)) (Go.TrimSpace sqlStr));
      [repeat split; reflexivity|].
    cbn [timingEnabled Fprintf with_term with_db with_clockReads fst snd].
    destruct (timingEnabled c) eqn:Et;
      cbn [database timingEnabled maxRows reader Fprintf with_term with_db
           with_clockReads];
      rewrite ?Et; repeat split; reflexivity.
Qed.

(** X12. Executing a statement changes nothing of the session but the
    terminal, the log of database calls and the clock: the database name
    (hence the prompt), the timing flag, the row cap and the line source
    are the same afterwards, whatever the statement and whatever the
    database answers. *)
Theorem executeSQL_keeps_the_settings :
  forall (Sprintf_3f : Z -> string) (c : CLI) (sqlStr : string),
    let c' := executeSQL Sprintf_3f c sqlStr in
    database c' = database c /\ getPrompt c' = getPrompt c /\
    timingEnabled c' = timingEnabled c /\ maxRows c' = maxRows c /\
    reader c' = reader c.
Proof.
  intros f c sqlStr c'.
  destruct (executeSQL_frame f c sqlStr) as (Hd & Ht & Hm & Hr).
  fold c' in Hd, Ht, Hm, Hr. unfold getPrompt. rewrite Hd.
  repeat split; assumption.
Qed.

(** ** The session loop *)

Lemma handleSpecialCommand_exit c cmd :
  String.eqb (Go.ToLower (Go.TrimSpace cmd)) "exit"
  || String.eqb (Go.ToLower (Go.TrimSpace cmd)) "quit" = true ->
  handleSpecialCommand c cmd = (true, Fprintf c nl).
Proof. intros H. unfold handleSpecialCommand. now rewrite H. Qed.

(** X13. [exit] and [quit], in any letter case, end the session: when the
    statement read is one of them [Start] writes a line feed and returns
    [nil], with no call to the database.  The test in [Start], on the
    trimmed statement, and the test in [handleSpecialCommand], which trims
    it once more, give the same answer on every statement; and on a
    statement that is neither, [Start] does not return in that round but
    goes on with the session that the handler or the executor left. *)
Theorem exit_and_quit_end_the_session :
  forall (Sprintf_3f : Z -> string) (Sprintf_format : string -> string)
         (fuel : nat) (c0 c : CLI) (stmt : string),
    readMultiLine fuel (Fprintf c0 (Sprintf_format (getPrompt c0)))
      = Some (stmt, c) ->
    stmt <> "" ->
    let sqlStr := Go.TrimSpace stmt in
    let exits :=
      String.eqb (Go.ToLower sqlStr) "exit"
      || String.eqb (Go.ToLower sqlStr) "quit" in
    (String.eqb (Go.ToLower (Go.TrimSpace sqlStr)) "exit"
     || String.eqb (Go.ToLower (Go.TrimSpace sqlStr)) "quit") = exits /\
    (exits = true ->
     handleSpecialCommand c sqlStr = (true, Fprintf c nl) /\
     Start Sprintf_3f Sprintf_format (S fuel) c0
       = Some (None, Fprintf c nl) /\
     db (Fprintf c nl) = db c) /\
    (exits = false ->
     Start Sprintf_3f Sprintf_format (S fuel) c0
     = Start Sprintf_3f Sprintf_format fuel
         (if fst (handleSpecialCommand c sqlStr)
          then snd (handleSpecialCommand c sqlStr)
          else executeSQL Sprintf_3f (snd (handleSpecialCommand c sqlStr))
                 sqlStr)).
Proof.
  intros f g fuel c0 c stmt Hread Hne sqlStr exits.
  apply String.eqb_neq in Hne.
  split; [|split].
  - subst exits sqlStr. now rewrite TrimSpace_idem.
  - intros Ht. subst exits.
    assert (Hh : handleSpecialCommand c sqlStr = (true, Fprintf c nl)).
    { apply handleSpecialCommand_exit. subst sqlStr.
      now rewrite TrimSpace_idem. }
    split; [exact Hh|]. split; [|reflexivity].
    cbn [Start]. rewrite Hread, Hne. fold sqlStr. now rewrite Hh, Ht.
  - intros Hf. subst exits.
    cbn [Start]. rewrite Hread, Hne. fold sqlStr.
    destruct (handleSpecialCommand c sqlStr) as [handled c2].
    cbn [fst snd]. rewrite Hf. destruct handled; reflexivity.
Qed.

Lemma exit_and_quit_end_the_session_witness :
  Start (fun _ => "0.000") verbatim 3 (sampleCLI [Line "  QUIT  "; Line "go"])
  = Some (None,
          Fprintf (reading (Fprintf (Fprintf (sampleCLI []) "master> ") "  -> ") [])
            nl) /\
  Start (fun _ => "0.000") verbatim 3 (sampleCLI [Line " exits;"; Line "quit;"])
  = Start (fun _ => "0.000") verbatim 2
      (executeSQL (fun _ => "0.000")
         (reading (Fprintf (sampleCLI []) "master> ") [Line "quit;"]) "exits").
Proof.
  assert (Hne : "QUIT" <> "") by discriminate.
  assert (Hne' : "exits" <> "") by discriminate.
  destruct (exit_and_quit_end_the_session (fun _ => "0.000") verbatim 2
              (sampleCLI [Line "  QUIT  "; Line "go"])
              (reading (Fprintf (Fprintf (sampleCLI []) "master> ") "  -> ") [])
              "QUIT" eq_refl Hne) as (_ & Hexit & _).
  destruct (exit_and_quit_end_the_session (fun _ => "0.000") verbatim 2
              (sampleCLI [Line " exits;"; Line "quit;"])
              (reading (Fprintf (sampleCLI []) "master> ") [Line "quit;"])
              "exits" eq_refl Hne') as (_ & _ & Hgo).
  split.
  - exact (proj1 (proj2 (Hexit eq_refl))).
  - exact (Hgo eq_refl).
Defined.




(** ** The table renderer: the widths as an invariant *)

Lemma headerWidth_range col : 4 <= headerWidth col <= 50.
Proof.
  unfold headerWidth.
  destruct (Z.ltb_spec (Go.len col) 4);
    [cbn; lia | destruct (Z.gtb_spec (Go.len col) 50); lia].
Qed.

Lemma fitCell_grows w s : w <= 50 -> w <= fst (fitCell w s).
Proof.
  intros Hw. unfold fitCell. destruct (Z.gtb_spec (Go.len s) w); [|cbn; lia].
  destruct (Z.gtb_spec (Go.len s) 50); cbn; lia.
Qed.

Lemma fitCell_fits w s : Go.len (snd (fitCell w s)) <= fst (fitCell w s).
Proof.
  unfold fitCell. destruct (Z.gtb_spec (Go.len s) w); [|cbn; lia].
  destruct (Z.gtb_spec (Go.len s) 50); cbn [fst snd]; [|lia].
  rewrite len_truncated; lia.
Qed.

Lemma Forall2_le_refl (ws : list Z) : Forall2 Z.le ws ws.
Proof. induction ws; constructor; [lia | assumption]. Qed.

Lemma formatRow_grows : forall vals ws,
  Forall (fun w => w <= 50) ws ->
  Forall2 Z.le ws (fst (formatRow ws vals)).
Proof.
  induction vals as [|v vals IH]; intros [|w ws] Hb;
    try apply Forall2_le_refl.
  rewrite formatRow_cons. cbn [fst]. inversion Hb; subst.
  constructor; [now apply fitCell_grows | now apply IH].
Qed.

Lemma Forall2_le_trans (a b c : list Z) :
  Forall2 Z.le a b -> Forall2 Z.le b c -> Forall2 Z.le a c.
Proof.
  intros H. revert c. induction H as [|x y a b Hxy _ IH]; intros c Hc.
  - inversion Hc. constructor.
  - inversion Hc; subst. constructor; [lia | now apply IH].
Qed.

Lemma formatRows_grows n : forall rows ws,
  Forall (fun w => w <= 50) ws ->
  Forall2 Z.le ws (fst (formatRows n ws rows)).
Proof.
  induction rows as [|row rows IH]; intros ws Hb.
  - apply Forall2_le_refl.
  - rewrite formatRows_cons. cbn [fst].
    eapply Forall2_le_trans; [now apply formatRow_grows|].
    apply IH. now apply formatRow_bound.
Qed.

Lemma formatRow_fits : forall vals ws,
  List.length ws = List.length vals ->
  Forall2 (fun w cell => Go.len cell <= w)
    (fst (formatRow ws vals)) (snd (formatRow ws vals)).
Proof.
  induction vals as [|v vals IH]; intros [|w ws] H; try discriminate.
  - constructor.
  - rewrite formatRow_cons. cbn [fst snd].
    constructor; [apply fitCell_fits | apply IH]. cbn in H. lia.
Qed.

Lemma fits_wider ws ws' (cells : list string) :
  Forall2 (fun w cell => Go.len cell <= w) ws cells ->
  Forall2 Z.le ws ws' ->
  Forall2 (fun w cell => Go.len cell <= w) ws' cells.
Proof.
  intros H. revert ws'. induction H as [|w cell ws cells Hw _ IH]; intros ws' Hle.
  - inversion Hle. constructor.
  - inversion Hle; subst. constructor; [lia | now apply IH].
Qed.

Lemma formatRows_fits n : forall rows ws,
  List.length ws = n ->
  Forall (fun w => w <= 50) ws ->
  Forall (fun rowStrs =>
            Forall2 (fun w cell => Go.len cell <= w)
              (fst (formatRows n ws rows)) rowStrs)
    (snd (formatRows n ws rows)).
Proof.
  induction rows as [|row rows IH]; intros ws Hn Hb; [constructor|].
  rewrite formatRows_cons. cbn [fst snd].
  pose proof (formatRow_bound (Scan n row) ws Hb) as Hb'.
  constructor.
  - eapply fits_wider; [|now apply formatRows_grows].
    apply formatRow_fits. now rewrite Scan_length.
  - apply IH; [now rewrite formatRow_length | exact Hb'].
Qed.

Lemma Forall2_nth_right {A B} (R : A -> B -> Prop) l l' i y :
  Forall2 R l l' -> nth_error l' i = Some y ->
  exists x, nth_error l i = Some x /\ R x y.
Proof.
  intros H. revert i. induction H as [|x0 y0 l l' Hxy _ IH]; intros i Hi.
  - destruct i; discriminate.
  - destruct i as [|i]; cbn in *.
    + inversion Hi; subst. now exists x0.
    + now apply IH.
Qed.

(** X15. The widths that the loop of [displayTable] ends with: one for
    each column, each between 4 and 50, and none smaller than the width
    the column started with from its name. *)
Theorem column_widths_between_4_and_50 :
  forall (maxRows : Z) (cols : list string) (cursor : list (list value))
         (colWidths : list Z) (allRows : list (list string))
         (rest : list (list value)),
    fetchRows maxRows (List.length cols) cursor (map headerWidth cols) []
      = (colWidths, allRows, rest) ->
    List.length colWidths = List.length cols /\
    Forall (fun w => 4 <= w <= 50) colWidths /\
    Forall2 Z.le (map headerWidth cols) colWidths.
Proof.
  intros m cols cursor ws all rest H.
  rewrite fetchRows_spec in H. inversion H; subst ws all rest; clear H.
  set (taken := firstn _ cursor).
  pose proof (formatRows_grows (List.length cols) taken (map headerWidth cols)
                (headerWidths_bound cols)) as Hle.
  pose proof (formatRows_bound (List.length cols) taken _
                (headerWidths_bound cols)) as Hb.
  split; [now rewrite formatRows_length, length_map|].
  split; [|exact Hle].
  rewrite Forall_forall in *. intros w Hw. split; [|now apply Hb].
  destruct (In_nth_error _ _ Hw) as [i Hi].
  destruct (Forall2_nth_right _ _ _ _ _ Hle Hi) as (w0 & Hw0 & Hlew).
  apply nth_error_In, in_map_iff in Hw0. destruct Hw0 as (col & <- & _).
  pose proof (headerWidth_range col). lia.
Qed.

Lemma column_widths_between_4_and_50_witness :
  List.length [4; 50; 12] = List.length ["id"; "body"; "seen"] /\
  Forall (fun w => 4 <= w <= 50) [4; 50; 12] /\
  Forall2 Z.le (map headerWidth ["id"; "body"; "seen"]) [4; 50; 12].
Proof.
  exact (column_widths_between_4_and_50 1000 ["id"; "body"; "seen"]
           [[VInt64 1; VBytes (Go.repeatN "ab" 30); VString "2024-01-02"];
            [VInt64 2; VNil; VString "last Tuesday"]]
           [4; 50; 12]
           [["1"; Go.repeatN "ab" 23 ++ "a..."; "2024-01-02"];
            ["2"; "NULL"; "last Tuesday"]] [] eq_refl).
Defined.

(** ** The table renderer: alignment *)

Lemma length_repeatN s n :
  String.length (Go.repeatN s n) = (n * String.length s)%nat.
Proof.
  induction n as [|n IH]; [reflexivity|].
  cbn [Go.repeatN]. rewrite length_append, IH. lia.
Qed.

Lemma cellsText_length ws (cells : list string) :
  Forall2 (fun w cell => Go.len cell <= w) ws cells ->
  Forall (fun cell => asciiText cell = true) cells ->
  String.length (cellsText ws cells)
  = String.length
      (String.concat "" (map (fun w => Go.Repeat "-" (w + 2) ++ "+") ws)).
Proof.
  induction 1 as [|w cell ws cells Hfit _ IH]; intros Ha; [reflexivity|].
  inversion Ha as [|? ? Hcell Hcells]; subst.
  cbn [cellsText map]. rewrite concat_cons.
  unfold Go.padRight. rewrite (RuneCountInString_ascii _ Hcell).
  unfold Go.Repeat, Go.len in *.
  rewrite !length_append, !length_repeatN, (IH Hcells).
  cbn [String.length]. lia.
Qed.

Lemma lineText_length ws (cells : list string) :
  Forall2 (fun w cell => Go.len cell <= w) ws cells ->
  Forall (fun cell => asciiText cell = true) cells ->
  String.length (lineText ws cells) = S (String.length (separatorText ws)).
Proof.
  intros H Ha. unfold lineText, separatorText.
  cbn [append String.length]. rewrite !length_append.
  now rewrite (cellsText_length _ _ H Ha).
Qed.

(** The cells made of ASCII values are ASCII. *)
Lemma fitCell_ascii w s :
  asciiText s = true -> asciiText (snd (fitCell w s)) = true.
Proof.
  intros H. unfold fitCell.
  destruct (Go.len s >? w); [|exact H].
  destruct (Go.len s >? 50); [now apply asciiText_truncated | exact H].
Qed.

Lemma formatRow_ascii : forall vals ws,
  Forall (fun v => asciiText (formatValue v) = true) vals ->
  Forall (fun cell => asciiText cell = true) (snd (formatRow ws vals)).
Proof.
  induction vals as [|v vals IH]; intros [|w ws] H; try constructor.
  - rewrite formatRow_cons. cbn [snd]. inversion H; subst.
    constructor; [now apply fitCell_ascii | now apply IH].
Qed.

Lemma Scan_ascii n row :
  Forall (fun v => asciiText (formatValue v) = true) row ->
  Forall (fun v => asciiText (formatValue v) = true) (Scan n row).
Proof.
  intros H. unfold Scan. destruct (List.length row =? n)%nat; [exact H|].
  apply Forall_forall. intros v Hv. apply repeat_spec in Hv. now subst v.
Qed.

Lemma formatRows_ascii n : forall rows ws,
  Forall (Forall (fun v => asciiText (formatValue v) = true)) rows ->
  Forall (Forall (fun cell => asciiText cell = true))
    (snd (formatRows n ws rows)).
Proof.
  induction rows as [|row rows IH]; intros ws H; [constructor|].
  rewrite formatRows_cons. cbn [snd]. inversion H; subst.
  constructor; [now apply formatRow_ascii, Scan_ascii | now apply IH].
Qed.

Lemma header_fits cols :
  Forall (fun col => Go.len col <= 50) cols ->
  Forall2 (fun w col => Go.len col <= w) (map headerWidth cols) cols.
Proof.
  induction 1 as [|col cols Hc _ IH]; cbn [map]; constructor; [|exact IH].
  unfold headerWidth.
  destruct (Z.ltb_spec (Go.len col) 4);
    [cbn; lia | destruct (Z.gtb_spec (Go.len col) 50); lia].
Qed.

(** X16. The table is aligned, for names and values that are ASCII text.
    Every row kept by the loop has one cell for each column, every cell is
    at most as long as the final width of its column, and so every line of
    cells is written with the same length: one byte more than a border
    line, for the space that ends it.  The line of column names has that
    length too when no name is longer than 50 bytes. *)
Theorem table_lines_are_aligned :
  forall (maxRows : Z) (cols : list string) (cursor : list (list value))
         (colWidths : list Z) (allRows : list (list string))
         (rest : list (list value)),
    Forall (fun col => asciiText col = true) cols ->
    Forall (Forall (fun v => asciiText (formatValue v) = true)) cursor ->
    fetchRows maxRows (List.length cols) cursor (map headerWidth cols) []
      = (colWidths, allRows, rest) ->
    Forall (fun rowStrs =>
              List.length rowStrs = List.length cols /\
              Forall2 (fun w cell => Go.len cell <= w) colWidths rowStrs /\
              String.length (lineText colWidths rowStrs)
              = S (String.length (separatorText colWidths)))
      allRows /\
    (Forall (fun col => Go.len col <= 50) cols ->
     String.length (lineText colWidths cols)
     = S (String.length (separatorText colWidths))).
Proof.
  intros m cols cursor ws all rest Hnames Hvalues H.
  rewrite fetchRows_spec in H. inversion H; subst ws all rest; clear H.
  cbn [app]. set (taken := firstn _ cursor).
  pose proof (formatRows_fits (List.length cols) taken (map headerWidth cols)
                (length_map _ _) (headerWidths_bound cols)) as Hfits.
  pose proof (formatRows_grows (List.length cols) taken (map headerWidth cols)
                (headerWidths_bound cols)) as Hle.
  assert (Hascii : Forall (Forall (fun cell => asciiText cell = true))
                     (snd (formatRows (List.length cols)
                             (map headerWidth cols) taken))).
  { apply formatRows_ascii. apply Forall_forall. intros row Hrow.
    rewrite Forall_forall in Hvalues. apply Hvalues.
    rewrite <- (firstn_skipn (rowsTaken m 0 (List.length cursor)) cursor).
    apply in_or_app. now left. }
  split.
  - rewrite Forall_forall in Hfits, Hascii. apply Forall_forall.
    intros rowStrs Hin.
    pose proof (Hfits _ Hin) as Hf. split; [|split].
    + rewrite <- (Forall2_length Hf), formatRows_length. apply length_map.
    + exact Hf.
    + apply lineText_length; [exact Hf | now apply Hascii].
  - intros Hcols. apply lineText_length; [|exact Hnames].
    eapply fits_wider; [now apply header_fits | exact Hle].
Qed.

Lemma table_lines_are_aligned_witness :
  Forall (fun rowStrs =>
            List.length rowStrs = 2%nat /\
            Forall2 (fun w cell => Go.len cell <= w) [4; 12] rowStrs /\
            String.length (lineText [4; 12] rowStrs)
            = S (String.length (separatorText [4; 12])))
    [["1"; "2024-01-02"]; ["NULL"; "last Tuesday"]] /\
  String.length (lineText [4; 12] ["id"; "seen"])
  = S (String.length (separatorText [4; 12])).
Proof.
  assert (Hcols : Forall (fun col => asciiText col = true) ["id"; "seen"])
    by (repeat constructor).
  assert (Hvals :
    Forall (Forall (fun v => asciiText (formatValue v) = true))
      [[VInt64 1; VString "2024-01-02"]; [VNil; VString "last Tuesday"]])
    by (repeat constructor).
  destruct (table_lines_are_aligned 1000 ["id"; "seen"]
              [[VInt64 1; VString "2024-01-02"]; [VNil; VString "last Tuesday"]]
              [4; 12] [["1"; "2024-01-02"]; ["NULL"; "last Tuesday"]] []
              Hcols Hvals eq_refl) as [Hrows Hhead].
  split; [exact Hrows|]. apply Hhead. repeat constructor; discriminate.
Defined.

(** A column name of more than 50 bytes is written in full into a column
    of width 50: the line of names is then longer than the others. *)
Example long_column_name_overflows :
  let name := Go.repeatN "c" 60 in
  headerWidth name = 50 /\
  String.length (lineText [50] [name]) = 66%nat /\
  String.length (separatorText [50]) = 55%nat.
Proof. cbv zeta. repeat split; reflexivity. Qed.

(** ** The table renderer: how many rows *)

Lemma rowsTaken_all m avail :
  Z.of_nat avail <= m -> rowsTaken m 0 avail = avail.
Proof. unfold rowsTaken. lia. Qed.

(** X17. A cursor with no more rows than the cap is rendered in full:
    every row is kept, the cursor is left empty, and the line under the
    table counts all the rows; for an empty cursor the table has its
    borders and its names only, over [(0 rows affected)]. *)
Theorem displayTable_renders_a_small_cursor_in_full :
  forall (Sprintf_3f : Z -> string) (c : CLI) (rows : Rows)
         (cols : list string) (startTime : Z),
    Z.of_nat (List.length (pending rows)) <= maxRows c ->
    let kept :=
      formatRows (List.length cols) (map headerWidth cols) (pending rows) in
    List.length (snd kept) = List.length (pending rows) /\
    pending (snd (displayTable Sprintf_3f c rows cols startTime)) = [] /\
    term (fst (displayTable Sprintf_3f c rows cols startTime))
      = term c ++ tableText (fst kept) cols (snd kept)
          ++ rowsAffected (Z.of_nat (List.length (pending rows)))
          ++ timingText Sprintf_3f (timingEnabled c)
               (clock c (clockReads c) - startTime)
          ++ nl.
Proof.
  intros f c rows cols st Hsmall kept.
  assert (Hfetch :
    fetchRows (maxRows c) (List.length cols) (pending rows)
      (map headerWidth cols) [] = (fst kept, snd kept, [])).
  { rewrite fetchRows_spec. cbn [List.length app].
    rewrite (rowsTaken_all _ _ Hsmall), firstn_all, skipn_all. reflexivity. }
  assert (Hlen : List.length (snd kept) = List.length (pending rows))
    by apply formatRows_count.
  destruct (displayTable_spec f c rows cols st _ _ _ Hfetch) as [Ht Hr].
  split; [exact Hlen|]. split; [now rewrite Hr|]. now rewrite Ht, Hlen.
Qed.

Lemma displayTable_renders_a_small_cursor_in_full_witness :
  term (fst (displayTable (fun _ => "0.000") (sampleCLI [])
               {| Columns := ["id"]; pending := [] |} ["id"] 0))
  = "+------+" ++ nl ++ "| id   | " ++ nl ++ "+------+" ++ nl
    ++ "+------+" ++ nl ++ "(0 rows affected)" ++ nl ++ nl.
Proof.
  assert (Hsmall :
    Z.of_nat (List.length (pending {| Columns := ["id"]; pending := [] |}))
    <= maxRows (sampleCLI [])) by (cbn; lia).
  destruct (displayTable_renders_a_small_cursor_in_full (fun _ => "0.000")
              (sampleCLI []) {| Columns := ["id"]; pending := [] |} ["id"] 0
              Hsmall) as (_ & _ & Ht).
  rewrite Ht. reflexivity.
Defined.

(** X18. The cap is tested after a row is kept, not before: with a cap of
    one or less, zero and negative caps included, a cursor that has a row
    gives up exactly one row and keeps the others. *)
Theorem fetchRows_keeps_one_row_before_testing_the_cap :
  forall (maxRows : Z) (ncols : nat) (row : list value)
         (cursor : list (list value)) (colWidths : list Z),
    maxRows <= 1 ->
    fetchRows maxRows ncols (row :: cursor) colWidths []
    = (fst (formatRow colWidths (Scan ncols row)),
       [snd (formatRow colWidths (Scan ncols row))],
       cursor).
Proof.
  intros m n row cursor ws Hm. cbn [fetchRows].
  destruct (formatRow ws (Scan n row)) as [ws' strs].
  cbn [app List.length fst snd].
  destruct (Z.geb_spec (Z.of_nat 1) m); [reflexivity | lia].
Qed.

Lemma fetchRows_keeps_one_row_before_testing_the_cap_witness :
  fetchRows 0 1 [[VInt64 10]; [VInt64 20]] [4] []
  = ([4], [["10"]], [[VInt64 20]]).
Proof.
  assert (Hm : 0 <= 1) by lia.
  exact (fetchRows_keeps_one_row_before_testing_the_cap 0 1 [VInt64 10]
           [[VInt64 20]] [4] Hm).
Defined.

(** ** What the meta-commands leave alone *)

(** X19. Of the settings of the session a meta-command changes only its
    own: the timing flag is changed by [timing] and by nothing else, the
    database name and the database handle by [use] and by nothing else,
    and the row cap and the line source by none.  A statement that is not
    a meta-command leaves the session as it is. *)
Theorem meta_commands_change_only_their_own_setting :
  forall (c : CLI) (cmd : string),
    let cmdLower := Go.ToLower (Go.TrimSpace cmd) in
    let c' := snd (handleSpecialCommand c cmd) in
    (cmdLower <> "timing" -> timingEnabled c' = timingEnabled c) /\
    (Go.HasPrefix cmdLower "use " = false ->
     database c' = database c /\ db c' = db c) /\
    maxRows c' = maxRows c /\ reader c' = reader c /\
    (fst (handleSpecialCommand c cmd) = false -> c' = c).
Proof.
  intros c cmd cmdLower c'. subst c'. unfold handleSpecialCommand.
  fold cmdLower.
  destruct (String.eqb cmdLower "exit" || String.eqb cmdLower "quit");
    [repeat split; intros; try reflexivity; discriminate|].
  destruct (String.eqb cmdLower "help");
    [repeat split; intros; try reflexivity; discriminate|].
  destruct (String.eqb_spec cmdLower "timing") as [Et|Et].
  - rewrite Et. cbn [Go.HasPrefix String.prefix].
    destruct (timingEnabled c); cbn;
      repeat split; intros; try reflexivity; try contradiction;
      discriminate.
  - destruct (String.eqb cmdLower "clear" || String.eqb cmdLower "cls");
      [repeat split; intros; try reflexivity; discriminate|].
    destruct (Go.HasPrefix cmdLower "use ") eqn:Eu.
    + assert (F : forall name,
        timingEnabled (useDatabase c name) = timingEnabled c /\
        maxRows (useDatabase c name) = maxRows c /\
        reader (useDatabase c name) = reader c).
      { intros name. unfold useDatabase, ExecContext.
        destruct (answerExec (db c) (calls (db c)) ("USE [" ++ name ++ "]"));
          repeat split; reflexivity. }
      destruct (Go.Fields cmd) as [|f0 [|name fs]]; cbn [fst snd];
        try (repeat split; intros; try reflexivity; discriminate).
      destruct (F name) as (F1 & F2 & F3).
      repeat split; intros; try assumption; discriminate.
    + repeat split; intros; reflexivity.
Qed.

Lemma meta_commands_change_only_their_own_setting_witness :
  let c := with_timingEnabled (sampleCLI [Line "next"]) true in
  timingEnabled (snd (handleSpecialCommand c "use sales")) = true /\
  database (snd (handleSpecialCommand c "timing")) = "master" /\
  db (snd (handleSpecialCommand c "timing")) = db c /\
  snd (handleSpecialCommand c "select 1") = c.
Proof.
  cbv zeta.
  destruct (meta_commands_change_only_their_own_setting
              (with_timingEnabled (sampleCLI [Line "next"]) true) "use sales")
    as (H1 & _).
  destruct (meta_commands_change_only_their_own_setting
              (with_timingEnabled (sampleCLI [Line "next"]) true) "timing")
    as (_ & H2 & _).
  destruct (meta_commands_change_only_their_own_setting
              (with_timingEnabled (sampleCLI [Line "next"]) true) "select 1")
    as (_ & _ & _ & _ & H3).
  cbv zeta in *.
  split; [apply H1; discriminate|].
  destruct (H2 eq_refl) as [Hd Hdb].
  split; [exact Hd|]. split; [exact Hdb|]. apply H3. reflexivity.
Defined.

(** ** End of input in the middle of a batch *)

(** X20. End of input is read as the line [exit] wherever it comes: it
    never ends a round by itself.  On a continuation line the word is
    appended to the lines gathered, a continuation prompt is written, and
    a batch closed later has [exit] as a line of its statement. *)
Theorem end_of_input_is_the_line_exit :
  forall (c : CLI) (lines : list string) (rest : list readlineResult)
         (fuel : nat),
    readRound (reading c (EOF :: rest)) lines
      = (NextRound (lines ++ ["exit"])%list, Fprintf (reading c rest) "  -> ")
    /\
    readRound (reading c (EOF :: rest)) lines
      = readRound (reading c (Line "exit" :: rest)) lines /\
    readLoop (S (S fuel)) (reading c (EOF :: Line "GO" :: rest)) lines
      = Some (Some (lines ++ ["exit"])%list,
              reading (Fprintf c "  -> ") rest).
Proof.
  intros c lines rest fuel.
  assert (R : forall c rest,
    readRound (reading c (EOF :: rest)) lines
    = (NextRound (lines ++ ["exit"])%list, Fprintf (reading c rest) "  -> ")).
  { intros c0 rest0. unfold readRound, ReadLine, Readline, reading. cbn.
    destruct lines; reflexivity. }
  split; [apply R|]. split.
  - rewrite R. symmetry. apply readRound_gathers; [reflexivity|].
    right. discriminate.
  - cbn [readLoop]. rewrite R, Fprintf_reading.
    rewrite readRound_ends by reflexivity. reflexivity.
Qed.

(** ** The text of a time *)

Lemma appendInt_two_digits x :
  0 <= x <= 99 -> String.length (Go.appendInt x 2) = 2%nat.
Proof.
  intros H.
  assert (A : forallb
                (fun n => (String.length (Go.appendInt (Z.of_nat n) 2) =? 2)%nat)
                (seq 0 100) = true) by (vm_compute; reflexivity).
  rewrite forallb_forall in A.
  specialize (A (Z.to_nat x)). rewrite Z2Nat.id in A by lia.
  apply Nat.eqb_eq, A, in_seq. lia.
Qed.

Lemma appendInt_four_digits x :
  0 <= x <= 9999 -> String.length (Go.appendInt x 4) = 4%nat.
Proof.
  intros H.
  assert (A : forallb
                (fun n => (String.length (Go.appendInt (Z.of_nat n) 4) =? 4)%nat)
                (seq 0 (Z.to_nat 10000)) = true) by (vm_compute; reflexivity).
  rewrite forallb_forall in A.
  specialize (A (Z.to_nat x)). rewrite Z2Nat.id in A by lia.
  apply Nat.eqb_eq, A, in_seq. lia.
Qed.

(** X21. A time of the years 0 to 9999 is written in exactly 19 bytes,
    [YYYY-MM-DD HH:MM:SS], and such a cell is never cut: whatever the
    width of its column, the cell kept is the whole text. *)
Theorem time_cell_has_19_bytes :
  forall (t : Time) (colWidth : Z),
    0 <= year t <= 9999 -> 1 <= month t <= 12 -> 1 <= day t <= 31 ->
    0 <= hour t <= 23 -> 0 <= minute t <= 59 -> 0 <= second t <= 59 ->
    String.length (formatValue (VTime t)) = 19%nat /\
    substring 4 1 (formatValue (VTime t)) = "-" /\
    substring 10 1 (formatValue (VTime t)) = " " /\
    snd (fitCell colWidth (formatValue (VTime t))) = formatValue (VTime t).
Proof.
  intros t w Hy Hmo Hd Hh Hmi Hs. cbn [formatValue]. unfold Time_Format.
  pose proof (appendInt_four_digits (year t) Hy) as Ly.
  pose proof (appendInt_two_digits (month t) ltac:(lia)) as Lmo.
  pose proof (appendInt_two_digits (day t) ltac:(lia)) as Ld.
  pose proof (appendInt_two_digits (hour t) ltac:(lia)) as Lh.
  pose proof (appendInt_two_digits (minute t) ltac:(lia)) as Lmi.
  pose proof (appendInt_two_digits (second t) ltac:(lia)) as Ls.
  destruct (Go.appendInt (year t) 4) as [|y1 [|y2 [|y3 [|y4 [|? ?]]]]];
    try discriminate Ly.
  destruct (Go.appendInt (month t) 2) as [|m1 [|m2 [|? ?]]];
    try discriminate Lmo.
  destruct (Go.appendInt (day t) 2) as [|d1 [|d2 [|? ?]]];
    try discriminate Ld.
  destruct (Go.appendInt (hour t) 2) as [|h1 [|h2 [|? ?]]];
    try discriminate Lh.
  destruct (Go.appendInt (minute t) 2) as [|n1 [|n2 [|? ?]]];
    try discriminate Lmi.
  destruct (Go.appendInt (second t) 2) as [|s1 [|s2 [|? ?]]];
    try discriminate Ls.
  cbn [append String.length substring]. repeat split; try reflexivity.
  unfold fitCell, Go.len. cbn [String.length].
  destruct (Z.of_nat 19 >? w); reflexivity.
Qed.

Lemma time_cell_has_19_bytes_witness :
  formatValue (VTime {| year := 1999; month := 12; day := 31;
                        hour := 23; minute := 59; second := 59 |})
    = "1999-12-31 23:59:59" /\
  String.length "1999-12-31 23:59:59" = 19%nat /\
  snd (fitCell 4 "1999-12-31 23:59:59") = "1999-12-31 23:59:59".
Proof.
  pose (t := {| year := 1999; month := 12; day := 31;
                hour := 23; minute := 59; second := 59 |}).
  destruct (time_cell_has_19_bytes t 4
              ltac:(cbn; lia) ltac:(cbn; lia) ltac:(cbn; lia)
              ltac:(cbn; lia) ltac:(cbn; lia) ltac:(cbn; lia))
    as (Hlen & _ & _ & Hfit).
  split; [reflexivity|]. split; [exact Hlen | exact Hfit].
Defined.
